(** * Coinbase wallet sensor: a shallow embedding and its properties

    The module under study is
    [homeassistant/components/sensor/coinbasewallet.py].  It has three
    parts: [setup_platform] (platform bootstrap), [CoinbaseSensor] (the
    entity the host sees) and [CoinbaseClient] (the poller that caches one
    account's data).

    Python objects become records, attribute assignment becomes explicit
    state passing, and the remote services (the Coinbase SDK and the REST
    endpoint reached through [urllib]) become an oracle, [World], that
    answers each request.  Every remote call and every log line is
    appended to a trace, so that "no call was issued" is a statement about
    that trace.  Exceptions are results: an exception the source does not
    catch leaves the function as [Raise], with the state as it was when the
    exception was thrown. *)

From Stdlib Require Import ZArith Ascii String.
From stdpp Require Import base option list strings gmap.

Local Open Scope Z_scope.

(** ** Python values *)

(** The values the module stores in attributes and reads out of decoded
    JSON documents.  [VNone] is Python's [None] (JSON [null]). *)
#[local] Unset Elimination Schemes.
Inductive value : Type :=
  | VNone
  | VBool (b : bool)
  | VNum (lit : string)
  | VStr (s : string)
  | VList (l : list value)
  | VDict (d : gmap string value).
#[local] Set Elimination Schemes.

Definition is_none (v : value) : bool :=
  match v with VNone => true | _ => false end.

(** [v == s] for a string literal [s]: only a string equals a string. *)
Definition py_eq_str (v : value) (s : string) : bool :=
  match v with
  | VStr t => bool_decide (t = s)
  | _ => false
  end.

(** [needle in hay] on two strings. *)
Fixpoint is_substring (needle hay : string) : bool :=
  if String.prefix needle hay then true
  else match hay with
       | EmptyString => false
       | String _ rest => is_substring needle rest
       end.

(** The double quote, as a one-character string. *)
Definition dquote : string := String "034"%char EmptyString.

(** ** Exceptions and results *)

Inductive exn : Type :=
  | AuthenticationError (msg : string)  (* coinbase.wallet.error *)
  | HTTPError (msg : string)            (* urllib.error, with its str() *)
  | KeyError (key : string)
  | TypeError
  | OtherError (msg : string).          (* URLError, timeouts, bad JSON ... *)

Inductive result (A : Type) : Type :=
  | Ret (a : A)
  | Raise (e : exn).
Arguments Ret {A} a.
Arguments Raise {A} e.

Definition returns {A} (r : result A) : bool :=
  match r with Ret _ => true | Raise _ => false end.

(** [k in container] and [container[k]] for a string key. *)
Definition py_contains (container : value) (k : string) : result bool :=
  match container with
  | VDict d => Ret (bool_decide (is_Some (d !! k)))
  | VStr s => Ret (is_substring k s)
  | VList l => Ret (existsb (fun v => py_eq_str v k) l)
  | VNone | VBool _ | VNum _ => Raise TypeError
  end.

Definition py_getitem (container : value) (k : string) : result value :=
  match container with
  | VDict d => match d !! k with
               | Some v => Ret v
               | None => Raise (KeyError k)
               end
  | _ => Raise TypeError
  end.

(** [str.format] renders [None] as the text [None]. *)
Definition format_opt (o : option string) : string :=
  match o with Some s => s | None => "None" end.

(** ** The remote services *)

Record Money := { amount : string; currency : string }.

(** What [client.get_account] returns (the fields the module reads). *)
Record Account := {
  acc_id : string;
  acc_name : string;
  acc_type : string;
  acc_resource : string;
  acc_primary : bool;
  acc_created_at : string;
  acc_updated_at : string;
  acc_balance : Money;
  acc_native_balance : Money;
}.

Record Request := { req_url : string; req_headers : list (string * string) }.

Inductive sdk_outcome (A : Type) : Type :=
  | SdkOk (a : A)
  | SdkAuthError (msg : string)
  | SdkFault (msg : string).
Arguments SdkOk {A} a.
Arguments SdkAuthError {A} msg.
Arguments SdkFault {A} msg.

(** The outcome of [urlopen(req)] followed by [json.loads(r.read())].
    [HttpFault] stands for every exception other than [HTTPError] that the
    two calls can throw; the source catches none of them and does nothing
    between the two calls, so they are not told apart. *)
Inductive http_outcome : Type :=
  | Http2xx (document : value)
  | HttpFailed (e : string)
  | HttpFault (msg : string).

Record World := {
  get_accounts : string -> string -> sdk_outcome (list Account);
  get_account : string -> string -> string -> sdk_outcome Account;
  urlopen : Request -> http_outcome;
}.

(** ** Traces *)

Inductive level := ERROR | DEBUG.

Inductive event : Type :=
  | CallGetAccounts (key secret : string)
  | CallGetAccount (key secret id : string)
  | CallUrlopen (req : Request)
  | Log (lvl : level) (msg : string).

Definition is_remote_call (e : event) : bool :=
  match e with Log _ _ => false | _ => true end.

Definition remote_calls (tr : list event) : list event :=
  filter (fun e => is_remote_call e = true) tr.

(** ** The monad: state, trace and exceptions *)

Definition M (S A : Type) : Type :=
  S -> list event -> result A * S * list event.

Definition ret {S A} (a : A) : M S A := fun s tr => (Ret a, s, tr).

Definition bind {S A B} (m : M S A) (k : A -> M S B) : M S B :=
  fun s tr =>
    match m s tr with
    | (Ret a, s', tr') => k a s' tr'
    | (Raise e, s', tr') => (Raise e, s', tr')
    end.

#[export] Instance M_ret {S} : MRet (M S) := fun A a => ret a.
#[export] Instance M_bind {S} : MBind (M S) := fun A B k m => bind m k.

Definition raise {S A} (e : exn) : M S A := fun s tr => (Raise e, s, tr).
Definition get {S} : M S S := fun s tr => (Ret s, s, tr).
Definition modify {S} (f : S -> S) : M S unit := fun s tr => (Ret tt, f s, tr).
Definition emit {S} (e : event) : M S unit := fun s tr => (Ret tt, s, tr ++ [e]).
Definition lift_result {S A} (r : result A) : M S A := fun s tr => (r, s, tr).

(** [try: m  except E as e: ...]: the exceptions selected by [sel] are
    handed to the [except] branch as [inr], with their text; every other
    exception keeps propagating. *)
Definition try_except {S A} (sel : exn -> option string) (m : M S A)
  : M S (A + string) :=
  fun s tr =>
    match m s tr with
    | (Ret a, s', tr') => (Ret (inl a), s', tr')
    | (Raise e, s', tr') =>
        match sel e with
        | Some msg => (Ret (inr msg), s', tr')
        | None => (Raise e, s', tr')
        end
    end.

Definition sel_AuthenticationError (e : exn) : option string :=
  match e with AuthenticationError msg => Some msg | _ => None end.

Definition sel_HTTPError (e : exn) : option string :=
  match e with HTTPError msg => Some msg | _ => None end.

(** Run an action on a fresh local object; its final state is returned
    with the result, and is lost when the action raises. *)
Definition run_local {S T A} (t0 : T) (m : M T A) : M S (A * T) :=
  fun s tr =>
    match m t0 tr with
    | (Ret a, t', tr') => (Ret (a, t'), s, tr')
    | (Raise e, _, tr') => (Raise e, s, tr')
    end.

(** Run an action on a part of the state. *)
Definition zoom {S T A} (proj : S -> T) (upd : T -> S -> S) (m : M T A) : M S A :=
  fun s tr =>
    match m (proj s) tr with
    | (r, t', tr') => (r, upd t' s, tr')
    end.

Definition logger {S} (lvl : level) (msg : string) : M S unit := emit (Log lvl msg).

Definition sdk_call {S A} (ev : event) (o : sdk_outcome A) : M S A :=
  emit ev ;;
  match o with
  | SdkOk a => ret a
  | SdkAuthError msg => raise (AuthenticationError msg)
  | SdkFault msg => raise (OtherError msg)
  end.

(** [urllib.request.urlopen(req)], then reading and decoding the body. *)
Definition http_call {S} (w : World) (req : Request) : M S value :=
  emit (CallUrlopen req) ;;
  match urlopen w req with
  | Http2xx document => ret document
  | HttpFailed e => raise (HTTPError e)
  | HttpFault msg => raise (OtherError msg)
  end.

(** ** Configuration *)

(** The platform configuration after [PLATFORM_SCHEMA] has validated it:
    [CONF_API_KEY], [CONF_API_SECRET], [CONF_NATIVE_BALANCE] and
    [CONF_EXCLUDE] (a list, empty when the option is left out). *)
Record Config := {
  api_key : string;
  api_secret : string;
  native_balance : bool;
  exclude_wallet : list string;
}.

Definition MIN_TIME_BETWEEN_SCANS : Z := 60.

(** Modelled from the spec: [homeassistant.util.Throttle], the decorator
    on [CoinbaseClient.update], is not part of the source file.  The
    decorated method keeps a last-refresh timestamp per instance; a call
    made when less than [min_time] seconds have elapsed since the last
    successful or attempted refresh returns immediately ([None]) and
    reuses the cached data; any other call records the time and runs the
    method.  [now] is the clock reading at the call. *)
Definition Throttle {S} (stamp : S -> option Z) (set_stamp : option Z -> S -> S)
    (min_time : Z) (method : M S value) (now : Z) : M S value :=
  self ← get;
  let throttled :=
    match stamp self with
    | Some last => bool_decide (now - last < min_time)
    | None => false
    end in
  if throttled then ret VNone
  else modify (set_stamp (Some now)) ;; method.

(** ** [class CoinbaseClient] *)

Module CoinbaseClient.

Record t := {
  haconf : Config;
  account_id : string;
  account_type : value;
  created_at : value;
  updated_at : value;
  primary : value;
  resource : value;
  balance_amount : value;
  balance_currency : value;
  native_balance_amount : value;
  native_balance_currency : value;
  buy_price : value;
  sell_price : value;
  spot_price : value;
  exch_rate_native_usd : value;
  (* the last-refresh timestamp of the throttle (see [Throttle]) *)
  _throttle : option Z;
}.

Definition init (config : Config) (account_id : string) : t :=
  {| haconf := config; account_id := account_id;
     account_type := VNone; created_at := VNone; updated_at := VNone;
     primary := VNone; resource := VNone;
     balance_amount := VNone; balance_currency := VNone;
     native_balance_amount := VNone; native_balance_currency := VNone;
     buy_price := VNone; sell_price := VNone; spot_price := VNone;
     exch_rate_native_usd := VNone;
     _throttle := None |}.

(** Attribute assignments. *)
Definition set_account (account : Account) (self : t) : t :=
  {| haconf := haconf self; account_id := account_id self;
     account_type := VStr (acc_type account);
     created_at := VStr (acc_created_at account);
     updated_at := VStr (acc_updated_at account);
     primary := VBool (acc_primary account);
     resource := VStr (acc_resource account);
     balance_amount := VStr (amount (acc_balance account));
     balance_currency := VStr (currency (acc_balance account));
     native_balance_amount := VStr (amount (acc_native_balance account));
     native_balance_currency := VStr (currency (acc_native_balance account));
     buy_price := buy_price self; sell_price := sell_price self;
     spot_price := spot_price self;
     exch_rate_native_usd := exch_rate_native_usd self;
     _throttle := _throttle self |}.

Definition set_prices (buy sell spot rate : value) (self : t) : t :=
  {| haconf := haconf self; account_id := account_id self;
     account_type := account_type self; created_at := created_at self;
     updated_at := updated_at self; primary := primary self;
     resource := resource self;
     balance_amount := balance_amount self;
     balance_currency := balance_currency self;
     native_balance_amount := native_balance_amount self;
     native_balance_currency := native_balance_currency self;
     buy_price := buy; sell_price := sell; spot_price := spot;
     exch_rate_native_usd := rate;
     _throttle := _throttle self |}.

Definition set_buy_price (v : value) (self : t) : t :=
  set_prices v (sell_price self) (spot_price self) (exch_rate_native_usd self) self.
Definition set_sell_price (v : value) (self : t) : t :=
  set_prices (buy_price self) v (spot_price self) (exch_rate_native_usd self) self.
Definition set_spot_price (v : value) (self : t) : t :=
  set_prices (buy_price self) (sell_price self) v (exch_rate_native_usd self) self.
Definition set_exch_rate_native_usd (v : value) (self : t) : t :=
  set_prices (buy_price self) (sell_price self) (spot_price self) v self.

Definition set_throttle (o : option Z) (self : t) : t :=
  {| haconf := haconf self; account_id := account_id self;
     account_type := account_type self; created_at := created_at self;
     updated_at := updated_at self; primary := primary self;
     resource := resource self;
     balance_amount := balance_amount self;
     balance_currency := balance_currency self;
     native_balance_amount := native_balance_amount self;
     native_balance_currency := native_balance_currency self;
     buy_price := buy_price self; sell_price := sell_price self;
     spot_price := spot_price self;
     exch_rate_native_usd := exch_rate_native_usd self;
     _throttle := o |}.

(** [def balance(self, native)] *)
Definition balance (native : bool) : M t value :=
  self ← get;
  if native then ret (native_balance_amount self)
  else ret (balance_amount self).

Definition base_url : string := "https://api.coinbase.com/v2/".
Definition api_version : string := "2017-10-26".

Definition queries (currency : option string) (currency_native : string)
  : gmap string string :=
  <["buy_price" := "prices/" +:+ format_opt currency +:+ "-" +:+ currency_native +:+ "/buy"]>
  (<["sell_price" := "prices/" +:+ format_opt currency +:+ "-" +:+ currency_native +:+ "/sell"]>
  (<["spot_price" := "prices/" +:+ format_opt currency +:+ "-" +:+ currency_native +:+ "/spot"]>
  (<["exchange_rate" := "exchange-rates"]> ∅))).

Definition request (url : string) : Request :=
  {| req_url := url; req_headers := [("CB-VERSION", api_version)] |}.

Definition error_msg (url e : string) : string :=
  "Coinbase API error (" +:+ url +:+ "): " +:+ e.

Definition not_supported (currency_native : string) : string :=
  "Currency " +:+ dquote +:+ currency_native +:+ dquote +:+ " not supported by Coinbase".

(** [@staticmethod def coinbasehttp(query, currency, currency_native)] *)
Definition coinbasehttp {S} (w : World) (query : string)
    (currency : option string) (currency_native : string) : M S value :=
  match queries currency currency_native !! query with
  | None => raise TypeError      (* base_url + None *)
  | Some path =>
      let url := base_url +:+ path in
      r ← try_except sel_HTTPError (http_call w (request url));
      match r with
      | inr e =>
          logger ERROR (error_msg url e) ;;
          ret (VStr (error_msg url e))
      | inl document =>
          data ← lift_result (py_getitem document "data");
          if bool_decide (query = "exchange_rate") then
            rates ← lift_result (py_getitem data "rates");
            present ← lift_result (py_contains rates currency_native);
            if (present : bool) then lift_result (py_getitem rates currency_native)
            else ret (VStr (not_supported currency_native))
          else lift_result (py_getitem data "amount")
      end
  end.

(** The body of [def update(self)], before the decorator. *)
Definition update_body (w : World) : M t value :=
  self ← get;
  let key := api_key (haconf self) in
  let secret := api_secret (haconf self) in
  r ← try_except sel_AuthenticationError
            (sdk_call (CallGetAccount key secret (account_id self))
                      (get_account w key secret (account_id self)));
  match r with
  | inr e =>
      logger ERROR ("Update sensor: Auth error (" +:+ e +:+ ").") ;;
      ret (VBool false)
  | inl account =>
      let cur := currency (acc_balance account) in
      let cur_native := currency (acc_native_balance account) in
      modify (set_account account) ;;
      rate ← coinbasehttp w "exchange_rate" None cur_native;
      modify (set_exch_rate_native_usd rate) ;;
      self ← get;
      if py_eq_str (account_type self) "wallet" then
        buy ← coinbasehttp w "buy_price" (Some cur) cur_native;
        modify (set_buy_price buy) ;;
        sell ← coinbasehttp w "sell_price" (Some cur) cur_native;
        modify (set_sell_price sell) ;;
        spot ← coinbasehttp w "spot_price" (Some cur) cur_native;
        modify (set_spot_price spot) ;;
        ret VNone
      else ret VNone
  end.

(** [@Throttle(MIN_TIME_BETWEEN_SCANS) def update(self)] *)
Definition update (w : World) (now : Z) : M t value :=
  Throttle _throttle set_throttle MIN_TIME_BETWEEN_SCANS (update_body w) now.

(** The thirteen cached attributes, in the order of [__init__]. *)
Definition snapshot (self : t) : list value :=
  [account_type self; created_at self; updated_at self; primary self;
   resource self; balance_amount self; balance_currency self;
   native_balance_amount self; native_balance_currency self;
   buy_price self; sell_price self; spot_price self;
   exch_rate_native_usd self].

End CoinbaseClient.

(** ** [class CoinbaseSensor(Entity)] *)

Module CoinbaseSensor.

Record t := {
  _name : string;
  account_id : string;
  native : bool;
  data : CoinbaseClient.t;
  _unit_of_measurement : value;
  _state : value;
}.

Definition set_data (d : CoinbaseClient.t) (self : t) : t :=
  {| _name := _name self; account_id := account_id self;
     native := native self; data := d;
     _unit_of_measurement := _unit_of_measurement self;
     _state := _state self |}.

Definition set_unit_of_measurement (v : value) (self : t) : t :=
  {| _name := _name self; account_id := account_id self;
     native := native self; data := data self;
     _unit_of_measurement := v; _state := _state self |}.

Definition set_state (v : value) (self : t) : t :=
  {| _name := _name self; account_id := account_id self;
     native := native self; data := data self;
     _unit_of_measurement := _unit_of_measurement self; _state := v |}.

(** [def __init__(self, config, name, account_id, native)]: the object
    under construction is local until the constructor returns. *)
Definition init {S} (w : World) (now : Z) (config : Config)
    (name account_id : string) (native : bool) : M S t :=
  let fresh :=
    {| _name := name; account_id := account_id; native := native;
       data := CoinbaseClient.init config account_id;
       _unit_of_measurement := VNone; _state := VNone |} in
  built ← run_local fresh
    (zoom data set_data (CoinbaseClient.update w now) ;;
     modify (set_unit_of_measurement VNone) ;;
     st ← zoom data set_data (CoinbaseClient.balance native);
     modify (set_state st));
  mret (snd built).

(** The properties. *)
Definition name (self : t) : string := _name self.

Definition state (self : t) : value := _state self.

Definition unit_of_measurement (self : t) : value :=
  if native self then CoinbaseClient.native_balance_currency (data self)
  else CoinbaseClient.balance_currency (data self).

Definition state_attributes (self : t) : gmap string value :=
  let attrs : gmap string value :=
    <["resource" := CoinbaseClient.resource (data self)]>
    (<["primary" := CoinbaseClient.primary (data self)]>
    (<["type" := CoinbaseClient.account_type (data self)]>
    (<["created_at" := CoinbaseClient.created_at (data self)]>
    (<["updated_at" := CoinbaseClient.updated_at (data self)]>
    (<["balance_amount" := CoinbaseClient.balance_amount (data self)]>
    (<["balance_currency" := CoinbaseClient.balance_currency (data self)]>
    (<["native_balance_amount" := CoinbaseClient.native_balance_amount (data self)]>
    (<["native_balance_currency" := CoinbaseClient.native_balance_currency (data self)]>
    (<["show_native" := VBool (native self)]> ∅))))))))) in
  let attrs_wallet : gmap string value :=
    <["buy_price" := CoinbaseClient.buy_price (data self)]>
    (<["sell_price" := CoinbaseClient.sell_price (data self)]>
    (<["spot_price" := CoinbaseClient.spot_price (data self)]>
    (<["exch_rate_native_usd" := CoinbaseClient.exch_rate_native_usd (data self)]> ∅))) in
  if py_eq_str (CoinbaseClient.account_type (data self)) "wallet"
  then attrs_wallet ∪ attrs      (* attrs.update(attrs_wallet) *)
  else attrs.

(** [def update(self)] *)
Definition update (w : World) (now : Z) : M t unit :=
  zoom data set_data (CoinbaseClient.update w now) ;;
  self ← get;
  st ← zoom data set_data (CoinbaseClient.balance (native self));
  modify (set_state st).

End CoinbaseSensor.

(** ** [def setup_platform(hass, config, add_devices)] *)

(** The host: the entities handed to [add_devices] so far. *)
Definition Host : Type := list CoinbaseSensor.t.

Definition add_devices (sensors : list CoinbaseSensor.t) : M Host unit :=
  modify (fun registered => registered ++ sensors).

(** The loop over [accounts.data], with the list [sensors] it grows. *)
Fixpoint setup_accounts (w : World) (now : Z) (config : Config)
    (accounts : list Account) (sensors : list CoinbaseSensor.t)
  : M Host (list CoinbaseSensor.t) :=
  match accounts with
  | [] => mret sensors
  | account :: rest =>
      sensors' ←
        (if bool_decide (acc_name account ∉ exclude_wallet config) then
           sensor ← CoinbaseSensor.init w now config
                      ("Coinbase " +:+ acc_name account) (acc_id account)
                      (native_balance config);
           logger DEBUG ("Sensor setup: Added sensor for account '"
                         +:+ acc_name account +:+ "'.") ;;
           mret (sensors ++ [sensor])
         else
           logger DEBUG ("Sensor setup: Excluded account '"
                         +:+ acc_name account +:+ "'.") ;;
           mret sensors);
      setup_accounts w now config rest sensors'
  end.

Definition setup_platform (w : World) (now : Z) (config : Config) : M Host value :=
  let key := api_key config in
  let secret := api_secret config in
  r ← try_except sel_AuthenticationError
        (sdk_call (CallGetAccounts key secret) (get_accounts w key secret));
  match r with
  | inr e =>
      logger ERROR ("Sensor setup: Coinbase Auth error (" +:+ e +:+ ")") ;;
      mret (VBool false)
  | inl accounts =>
      logger DEBUG "Sensor setup: Connecion to Coinbase established." ;;
      sensors ← setup_accounts w now config accounts [];
      add_devices sensors ;;
      logger DEBUG "Sensor setup: Complete." ;;
      mret VNone
  end.

(** ** Sample data *)

Module Sample.

Definition config : Config :=
  {| api_key := "key"; api_secret := "secret";
     native_balance := false; exclude_wallet := ["Vault"] |}.

Definition btc_wallet : Account :=
  {| acc_id := "a1"; acc_name := "Checking"; acc_type := "wallet";
     acc_resource := "account"; acc_primary := true;
     acc_created_at := "2017-01-01T00:00:00Z";
     acc_updated_at := "2017-10-26T00:00:00Z";
     acc_balance := {| amount := "0.5"; currency := "BTC" |};
     acc_native_balance := {| amount := "3000.00"; currency := "USD" |} |}.

Definition usd_fiat : Account :=
  {| acc_id := "a2"; acc_name := "Vault"; acc_type := "fiat";
     acc_resource := "account"; acc_primary := false;
     acc_created_at := "2017-01-02T00:00:00Z";
     acc_updated_at := "2017-10-27T00:00:00Z";
     acc_balance := {| amount := "12.00"; currency := "USD" |};
     acc_native_balance := {| amount := "12.00"; currency := "USD" |} |}.

(** [{"data": {"amount": a}}] and [{"data": {"rates": rates}}]. *)
Definition price_document (a : string) : value :=
  VDict {[ "data" := VDict {[ "amount" := VStr a ]} ]}.

Definition rates_document (rates : gmap string value) : value :=
  VDict {[ "data" := VDict {[ "rates" := VDict rates ]} ]}.

Definition rates : gmap string value :=
  {[ "USD" := VStr "1.0"; "EUR" := VStr "0.85" ]}.

Definition url (path : string) : string := CoinbaseClient.base_url +:+ path.

(** A pricing endpoint where every call succeeds. *)
Definition pricing (req : Request) : http_outcome :=
  if bool_decide (req_url req = url "exchange-rates") then
    Http2xx (rates_document rates)
  else if bool_decide (req_url req = url "prices/BTC-USD/buy") then
    Http2xx (price_document "6060.00")
  else if bool_decide (req_url req = url "prices/BTC-USD/sell") then
    Http2xx (price_document "5940.00")
  else if bool_decide (req_url req = url "prices/BTC-USD/spot") then
    Http2xx (price_document "6000.00")
  else HttpFailed "HTTP Error 404: Not Found".

(** The same endpoint with the spot price answering 500. *)
Definition pricing_spot_down (req : Request) : http_outcome :=
  if bool_decide (req_url req = url "prices/BTC-USD/spot") then
    HttpFailed "HTTP Error 500: Internal Server Error"
  else pricing req.

Definition accounts (acc : Account) (key secret id : string) : sdk_outcome Account :=
  if bool_decide (key = "key" ∧ secret = "secret") then
    if bool_decide (id = acc_id acc) then SdkOk acc
    else SdkFault "APIError: not found"
  else SdkAuthError "invalid api key".

Definition listing (key secret : string) : sdk_outcome (list Account) :=
  if bool_decide (key = "key" ∧ secret = "secret") then
    SdkOk [usd_fiat; btc_wallet]
  else SdkAuthError "invalid api key".

(** The account [a1] seen as a wallet, and later reported as fiat. *)
Definition world_wallet : World :=
  {| get_accounts := listing; get_account := accounts btc_wallet; urlopen := pricing |}.

Definition world_fiat : World :=
  {| get_accounts := listing; get_account := accounts usd_fiat; urlopen := pricing |}.

Definition world_spot_down : World :=
  {| get_accounts := listing; get_account := accounts btc_wallet;
     urlopen := pricing_spot_down |}.

Definition world_denied : World :=
  {| get_accounts := fun _ _ => SdkAuthError "invalid api key";
     get_account := fun _ _ _ => SdkAuthError "invalid api key";
     urlopen := pricing |}.

(** The credentials are refused after the listing. *)
Definition world_revoked : World :=
  {| get_accounts := listing;
     get_account := fun _ _ _ => SdkAuthError "invalid api key";
     urlopen := pricing |}.

(** The wallet [a1] when the remote side reports it with kind fiat. *)
Definition btc_as_fiat : Account :=
  {| acc_id := "a1"; acc_name := "Checking"; acc_type := "fiat";
     acc_resource := "account"; acc_primary := true;
     acc_created_at := "2017-01-01T00:00:00Z";
     acc_updated_at := "2017-10-29T00:00:00Z";
     acc_balance := {| amount := "0.5"; currency := "BTC" |};
     acc_native_balance := {| amount := "3100.00"; currency := "USD" |} |}.

Definition world_wallet_as_fiat : World :=
  {| get_accounts := listing; get_account := accounts btc_as_fiat;
     urlopen := pricing |}.

(** The poller of account [a1] after a first refresh at time 0. *)
Definition poller : CoinbaseClient.t :=
  (CoinbaseClient.update world_wallet 0 (CoinbaseClient.init config "a1") []).1.2.

(** An exchange-rates endpoint that does not list the currency [XYZ]. *)
Definition xyz_account : Account :=
  {| acc_id := "a3"; acc_name := "Savings"; acc_type := "fiat";
     acc_resource := "account"; acc_primary := false;
     acc_created_at := "2017-01-03T00:00:00Z";
     acc_updated_at := "2017-10-28T00:00:00Z";
     acc_balance := {| amount := "7.00"; currency := "XYZ" |};
     acc_native_balance := {| amount := "7.00"; currency := "XYZ" |} |}.

Definition world_xyz : World :=
  {| get_accounts := listing; get_account := accounts xyz_account;
     urlopen := pricing |}.

(** The SDK answers but the pricing endpoint cannot be reached. *)
Definition world_offline : World :=
  {| get_accounts := listing; get_account := accounts btc_as_fiat;
     urlopen := fun _ => HttpFault "URLError: timed out" |}.



End Sample.

(** * Vocabulary of the properties *)

(** The four requests of a refresh, by query name. *)
Definition rate_url : string := CoinbaseClient.base_url +:+ "exchange-rates".

Definition price_url (currency currency_native kind : string) : string :=
  CoinbaseClient.base_url +:+ "prices/" +:+ currency +:+ "-" +:+ currency_native +:+ "/" +:+ kind.

Definition call_url (query : string) (account : Account) : string :=
  let cur := currency (acc_balance account) in
  let cur_native := currency (acc_native_balance account) in
  if bool_decide (query = "buy_price") then price_url cur cur_native "buy"
  else if bool_decide (query = "sell_price") then price_url cur cur_native "sell"
  else if bool_decide (query = "spot_price") then price_url cur cur_native "spot"
  else rate_url.

(** The value [coinbasehttp] computes from the outcome of its request. *)
Definition reply (query currency_native url : string) (o : http_outcome)
  : result value :=
  match o with
  | HttpFailed e => Ret (VStr (CoinbaseClient.error_msg url e))
  | HttpFault msg => Raise (OtherError msg)
  | Http2xx document =>
      match py_getitem document "data" with
      | Raise e => Raise e
      | Ret data =>
          if bool_decide (query = "exchange_rate") then
            match py_getitem data "rates" with
            | Raise e => Raise e
            | Ret rates =>
                match py_contains rates currency_native with
                | Raise e => Raise e
                | Ret true => py_getitem rates currency_native
                | Ret false => Ret (VStr (CoinbaseClient.not_supported currency_native))
                end
            end
          else py_getitem data "amount"
      end
  end.

(** The events of one pricing call: the request, and the error it logs. *)
Definition call_events (url : string) (o : http_outcome) : list event :=
  CallUrlopen (CoinbaseClient.request url) ::
  match o with
  | HttpFailed e => [Log ERROR (CoinbaseClient.error_msg url e)]
  | _ => []
  end.

(** The documents of the pricing contract: [{"data": {"amount": a}}]
    and [{"data": {"rates": {...}}}]. *)
Definition amount_of (document : value) : option value :=
  match document with
  | VDict d =>
      match d !! "data" with
      | Some (VDict data) => data !! "amount"
      | _ => None
      end
  | _ => None
  end.

Definition rates_of (document : value) : option (gmap string value) :=
  match document with
  | VDict d =>
      match d !! "data" with
      | Some (VDict data) =>
          match data !! "rates" with
          | Some (VDict rates) => Some rates
          | _ => None
          end
      | _ => None
      end
  | _ => None
  end.

(** The value a 2xx response quotes for [query]. *)
Definition quoted (query currency_native : string) (document : value)
  : option value :=
  if bool_decide (query = "exchange_rate") then
    match rates_of document with
    | Some rates => rates !! currency_native
    | None => None
    end
  else amount_of document.

(** What a pricing call answers when the endpoint keeps to its contract:
    an HTTP error becomes the error text, a 2xx document yields the quoted
    amount or rate, and a rates map without the currency yields the "not
    supported" text.  Anything else is [None] here. *)
Definition answer (query currency_native url : string) (o : http_outcome)
  : option value :=
  match o with
  | HttpFailed e => Some (VStr (CoinbaseClient.error_msg url e))
  | HttpFault _ => None
  | Http2xx document =>
      if bool_decide (query = "exchange_rate") then
        match rates_of document with
        | Some rates =>
            Some (default (VStr (CoinbaseClient.not_supported currency_native))
                          (rates !! currency_native))
        | None => None
        end
      else amount_of document
  end.

(** The outcome and the reply of the call for [query] about [account]. *)
Definition outcome_of (w : World) (query : string) (account : Account) : http_outcome :=
  urlopen w (CoinbaseClient.request (call_url query account)).

Definition reply_of (w : World) (query : string) (account : Account) : result value :=
  reply query (currency (acc_native_balance account)) (call_url query account)
        (outcome_of w query account).

Definition events_of (w : World) (query : string) (account : Account) : list event :=
  call_events (call_url query account) (outcome_of w query account).

Definition account_call (self : CoinbaseClient.t) : event :=
  CallGetAccount (api_key (CoinbaseClient.haconf self))
                 (api_secret (CoinbaseClient.haconf self))
                 (CoinbaseClient.account_id self).

Definition account_outcome (w : World) (self : CoinbaseClient.t) : sdk_outcome Account :=
  get_account w (api_key (CoinbaseClient.haconf self))
                (api_secret (CoinbaseClient.haconf self))
                (CoinbaseClient.account_id self).

Definition throttled (now : Z) (self : CoinbaseClient.t) : bool :=
  match CoinbaseClient._throttle self with
  | Some last => bool_decide (now - last < MIN_TIME_BETWEEN_SCANS)
  | None => false
  end.

(** The remote behaviour the properties assume where they say "normal":
    the SDK answers or refuses the credentials, and each pricing call the
    refresh makes ends in an HTTP error or in a document of the contract
    that quotes a string. *)
Definition answer_of (w : World) (query : string) (account : Account) : option value :=
  answer query (currency (acc_native_balance account)) (call_url query account)
         (outcome_of w query account).

Definition text_answer (w : World) (query : string) (account : Account) : bool :=
  match answer_of w query account with
  | Some (VStr _) => true
  | _ => false
  end.

Definition normal_refresh (w : World) (self : CoinbaseClient.t) : bool :=
  match account_outcome w self with
  | SdkFault _ => false
  | SdkAuthError _ => true
  | SdkOk account =>
      text_answer w "exchange_rate" account &&
      (if bool_decide (acc_type account = "wallet") then
         text_answer w "buy_price" account &&
         text_answer w "sell_price" account &&
         text_answer w "spot_price" account
       else true)
  end.

Definition reports_wallet (w : World) (self : CoinbaseClient.t) : bool :=
  match account_outcome w self with
  | SdkOk account => bool_decide (acc_type account = "wallet")
  | _ => false
  end.

(** The pricing attribute a query fills. *)
Definition pricing_queries : list string :=
  ["exchange_rate"; "buy_price"; "sell_price"; "spot_price"].

Definition field_of (query : string) (self : CoinbaseClient.t) : value :=
  if bool_decide (query = "buy_price") then CoinbaseClient.buy_price self
  else if bool_decide (query = "sell_price") then CoinbaseClient.sell_price self
  else if bool_decide (query = "spot_price") then CoinbaseClient.spot_price self
  else CoinbaseClient.exch_rate_native_usd self.

(** The snapshot in three groups. *)
Definition account_fields (self : CoinbaseClient.t) : list value :=
  [CoinbaseClient.account_type self; CoinbaseClient.created_at self;
   CoinbaseClient.updated_at self; CoinbaseClient.primary self;
   CoinbaseClient.resource self; CoinbaseClient.balance_amount self;
   CoinbaseClient.balance_currency self;
   CoinbaseClient.native_balance_amount self;
   CoinbaseClient.native_balance_currency self].

Definition price_fields (self : CoinbaseClient.t) : list value :=
  [CoinbaseClient.buy_price self; CoinbaseClient.sell_price self;
   CoinbaseClient.spot_price self].

Definition pricing_fields (self : CoinbaseClient.t) : list value :=
  price_fields self ++ [CoinbaseClient.exch_rate_native_usd self].

Definition account_values (account : Account) : list value :=
  [VStr (acc_type account); VStr (acc_created_at account);
   VStr (acc_updated_at account); VBool (acc_primary account);
   VStr (acc_resource account);
   VStr (amount (acc_balance account)); VStr (currency (acc_balance account));
   VStr (amount (acc_native_balance account));
   VStr (currency (acc_native_balance account))].

Definition unset (fields : list value) : bool := forallb is_none fields.

Definition populated (fields : list value) : bool :=
  forallb (fun v => negb (is_none v)) fields.

Definition is_wallet (self : CoinbaseClient.t) : bool :=
  py_eq_str (CoinbaseClient.account_type self) "wallet".

(** The snapshot invariant in the words of the specification: empty, or
    populated for its kind, the pricing fields being unset unless the kind
    is wallet. *)
Definition snapshot_as_specified (self : CoinbaseClient.t) : bool :=
  unset (CoinbaseClient.snapshot self) ||
  (populated (account_fields self) &&
   (if is_wallet self then populated (pricing_fields self)
    else unset (pricing_fields self))).

(** The invariant the code keeps: the exchange rate is stored for every
    kind, and the three prices are there whenever the kind is wallet. *)
Definition snapshot_invariant (self : CoinbaseClient.t) : bool :=
  unset (CoinbaseClient.snapshot self) ||
  (populated (account_fields self) &&
   negb (is_none (CoinbaseClient.exch_rate_native_usd self)) &&
   (if is_wallet self then populated (price_fields self) else true)).

(** A sequence of refreshes, each at its clock reading and against the
    remote services as they are at that moment.  The host calls again
    whatever the previous call did. *)
Fixpoint refreshes (ticks : list (Z * World)) (self : CoinbaseClient.t)
    (tr : list event) : CoinbaseClient.t * list event :=
  match ticks with
  | [] => (self, tr)
  | (now, w) :: rest =>
      let '(_, self', tr') := CoinbaseClient.update w now self tr in
      refreshes rest self' tr'
  end.

(** What one refresh does to the client when the remote side is normal. *)
Inductive refresh_effect (w : World) (now : Z) (self : CoinbaseClient.t)
  : CoinbaseClient.t -> Prop :=
  | effect_throttled :
      throttled now self = true ->
      refresh_effect w now self self
  | effect_denied msg :
      throttled now self = false ->
      account_outcome w self = SdkAuthError msg ->
      refresh_effect w now self (CoinbaseClient.set_throttle (Some now) self)
  | effect_other account rate :
      throttled now self = false ->
      account_outcome w self = SdkOk account ->
      acc_type account <> "wallet" ->
      answer_of w "exchange_rate" account = Some (VStr rate) ->
      refresh_effect w now self
        (CoinbaseClient.set_exch_rate_native_usd (VStr rate)
           (CoinbaseClient.set_account account
              (CoinbaseClient.set_throttle (Some now) self)))
  | effect_wallet account rate buy sell spot :
      throttled now self = false ->
      account_outcome w self = SdkOk account ->
      acc_type account = "wallet" ->
      answer_of w "exchange_rate" account = Some (VStr rate) ->
      answer_of w "buy_price" account = Some (VStr buy) ->
      answer_of w "sell_price" account = Some (VStr sell) ->
      answer_of w "spot_price" account = Some (VStr spot) ->
      refresh_effect w now self
        (CoinbaseClient.set_prices (VStr buy) (VStr sell) (VStr spot) (VStr rate)
           (CoinbaseClient.set_account account
              (CoinbaseClient.set_throttle (Some now) self))).

(** The entity a constructor call leaves, given the client it refreshed. *)
Definition sensor_of (name account_id : string) (native : bool)
    (client : CoinbaseClient.t) : CoinbaseSensor.t :=
  {| CoinbaseSensor._name := name;
     CoinbaseSensor.account_id := account_id;
     CoinbaseSensor.native := native;
     CoinbaseSensor.data := client;
     CoinbaseSensor._unit_of_measurement := VNone;
     CoinbaseSensor._state :=
       if native then CoinbaseClient.native_balance_amount client
       else CoinbaseClient.balance_amount client |}.

Definition excluded (config : Config) (account : Account) : Prop :=
  acc_name account ∈ exclude_wallet config.

(** The value the 2xx response to the call for [query] quotes, if the
    call got one. *)
Definition quoted_by (w : World) (query : string) (account : Account) : option value :=
  match outcome_of w query account with
  | Http2xx document => quoted query (currency (acc_native_balance account)) document
  | _ => None
  end.

(** The balance the entity shows. *)
Definition shown_balance (native : bool) (client : CoinbaseClient.t) : value :=
  if native then CoinbaseClient.native_balance_amount client
  else CoinbaseClient.balance_amount client.

(** An entity that has nothing to show: no state, no unit, and [None] for
    every attribute read from the snapshot. *)
Definition blank (sensor : CoinbaseSensor.t) : Prop :=
  CoinbaseSensor.state sensor = VNone /\
  CoinbaseSensor.unit_of_measurement sensor = VNone /\
  forall k v, CoinbaseSensor.state_attributes sensor !! k = Some v ->
              k <> "show_native" -> v = VNone.

(** [sensor] is the entity, with its poller, built for [account]. *)
Definition adapts (config : Config) (sensor : CoinbaseSensor.t) (account : Account)
  : Prop :=
  CoinbaseSensor.name sensor = "Coinbase " +:+ acc_name account /\
  CoinbaseSensor.account_id sensor = acc_id account /\
  CoinbaseSensor.native sensor = native_balance config /\
  CoinbaseClient.account_id (CoinbaseSensor.data sensor) = acc_id account /\
  CoinbaseClient.haconf (CoinbaseSensor.data sensor) = config.

Definition denied (w : World) (config : Config) (account : Account) : Prop :=
  exists msg,
    get_account w (api_key config) (api_secret config) (acc_id account)
    = SdkAuthError msg.

Definition built_for (w : World) (config : Config) (sensor : CoinbaseSensor.t)
    (account : Account) : Prop :=
  adapts config sensor account /\ (denied w config account -> blank sensor).

Definition listed (config : Config) (accounts : list Account) : list Account :=
  filter (fun a => acc_name a ∉ exclude_wallet config) accounts.

(** Every way the body of a refresh can end, whatever the remote side
    does: the result, the client it leaves and the events it appends. *)
Inductive body_run (w : World) (self : CoinbaseClient.t)
  : result value -> CoinbaseClient.t -> list event -> Prop :=
  | run_denied msg :
      account_outcome w self = SdkAuthError msg ->
      body_run w self (Ret (VBool false)) self
        [account_call self;
         Log ERROR ("Update sensor: Auth error (" +:+ msg +:+ ").")]
  | run_account_fault msg :
      account_outcome w self = SdkFault msg ->
      body_run w self (Raise (OtherError msg)) self [account_call self]
  | run_rate_raise account e :
      account_outcome w self = SdkOk account ->
      reply_of w "exchange_rate" account = Raise e ->
      body_run w self (Raise e) (CoinbaseClient.set_account account self)
        (account_call self :: events_of w "exchange_rate" account)
  | run_other account rate :
      account_outcome w self = SdkOk account ->
      acc_type account <> "wallet" ->
      reply_of w "exchange_rate" account = Ret rate ->
      body_run w self (Ret VNone)
        (CoinbaseClient.set_exch_rate_native_usd rate
           (CoinbaseClient.set_account account self))
        (account_call self :: events_of w "exchange_rate" account)
  | run_buy_raise account rate e :
      account_outcome w self = SdkOk account ->
      acc_type account = "wallet" ->
      reply_of w "exchange_rate" account = Ret rate ->
      reply_of w "buy_price" account = Raise e ->
      body_run w self (Raise e)
        (CoinbaseClient.set_exch_rate_native_usd rate
           (CoinbaseClient.set_account account self))
        (account_call self :: events_of w "exchange_rate" account
           ++ events_of w "buy_price" account)
  | run_sell_raise account rate buy e :
      account_outcome w self = SdkOk account ->
      acc_type account = "wallet" ->
      reply_of w "exchange_rate" account = Ret rate ->
      reply_of w "buy_price" account = Ret buy ->
      reply_of w "sell_price" account = Raise e ->
      body_run w self (Raise e)
        (CoinbaseClient.set_buy_price buy
           (CoinbaseClient.set_exch_rate_native_usd rate
              (CoinbaseClient.set_account account self)))
        (account_call self :: events_of w "exchange_rate" account
           ++ events_of w "buy_price" account ++ events_of w "sell_price" account)
  | run_spot_raise account rate buy sell e :
      account_outcome w self = SdkOk account ->
      acc_type account = "wallet" ->
      reply_of w "exchange_rate" account = Ret rate ->
      reply_of w "buy_price" account = Ret buy ->
      reply_of w "sell_price" account = Ret sell ->
      reply_of w "spot_price" account = Raise e ->
      body_run w self (Raise e)
        (CoinbaseClient.set_sell_price sell
           (CoinbaseClient.set_buy_price buy
              (CoinbaseClient.set_exch_rate_native_usd rate
                 (CoinbaseClient.set_account account self))))
        (account_call self :: events_of w "exchange_rate" account
           ++ events_of w "buy_price" account ++ events_of w "sell_price" account
           ++ events_of w "spot_price" account)
  | run_wallet account rate buy sell spot :
      account_outcome w self = SdkOk account ->
      acc_type account = "wallet" ->
      reply_of w "exchange_rate" account = Ret rate ->
      reply_of w "buy_price" account = Ret buy ->
      reply_of w "sell_price" account = Ret sell ->
      reply_of w "spot_price" account = Ret spot ->
      body_run w self (Ret VNone)
        (CoinbaseClient.set_prices buy sell spot rate
           (CoinbaseClient.set_account account self))
        (account_call self :: events_of w "exchange_rate" account
           ++ events_of w "buy_price" account ++ events_of w "sell_price" account
           ++ events_of w "spot_price" account).

(** The keys of [attrs_wallet]. *)
Definition wallet_keys : list string :=
  ["buy_price"; "sell_price"; "spot_price"; "exch_rate_native_usd"].

(** The balance of [account] the entity is configured to show. *)
Definition shown_money (native : bool) (account : Account) : Money :=
  if native then acc_native_balance account else acc_balance account.

(** The events a refresh may append: never a listing of the accounts, and
    every request to the pricing endpoint pins the API version. *)
Definition refresh_event (e : event) : Prop :=
  match e with
  | CallGetAccounts _ _ => False
  | CallGetAccount _ _ _ => True
  | CallUrlopen req => req_headers req = [("CB-VERSION", "2017-10-26")]
  | Log _ _ => True
  end.

(** The first refresh for [account] raises: the SDK faults, or the
    exchange-rates call does. *)
Definition first_refresh_faults (w : World) (config : Config) (account : Account)
  : Prop :=
  (exists msg,
     get_account w (api_key config) (api_secret config) (acc_id account)
     = SdkFault msg) \/
  (exists detail msg,
     get_account w (api_key config) (api_secret config) (acc_id account)
     = SdkOk detail /\
     outcome_of w "exchange_rate" detail = HttpFault msg).

(** * Properties *)

(** ** What one pricing call yields *)

Lemma coinbasehttp_run {S} (w : World) query currency currency_native path
    (s : S) tr :
  CoinbaseClient.queries currency currency_native !! query = Some path ->
  let url := CoinbaseClient.base_url +:+ path in
  let o := urlopen w (CoinbaseClient.request url) in
  CoinbaseClient.coinbasehttp w query currency currency_native s tr
  = (reply query currency_native url o, s, tr ++ call_events url o).
Proof.
  intros Hq url o. unfold CoinbaseClient.coinbasehttp. rewrite Hq.
  fold url. unfold mbind, M_bind, bind, try_except, http_call, mbind, M_bind, bind, emit.
  fold o. unfold reply, call_events.
  destruct o as [document|e|msg]; cbn.
  - destruct (py_getitem document "data") as [data|?]; [|done].
    case_bool_decide; [|done].
    destruct (py_getitem data "rates") as [rates|?]; [|done].
    destruct (py_contains rates currency_native) as [[]|?]; done.
  - unfold ret. by rewrite <- app_assoc.
  - done.
Qed.

Lemma answer_reply query currency_native url o v :
  answer query currency_native url o = Some v ->
  reply query currency_native url o = Ret v.
Proof.
  unfold answer, reply, amount_of, rates_of.
  destruct o as [document|e|msg]; [|by intros [= <-]|done].
  destruct document as [| | | | |d]; try (by case_bool_decide).
  cbn. destruct (d !! "data") as [[| | | | |data]|]; try (by case_bool_decide).
  case_bool_decide.
  - cbn. destruct (data !! "rates") as [[| | | | |rates]|]; try done.
    cbn. destruct (rates !! currency_native) as [x|] eqn:Hx.
    + rewrite bool_decide_eq_true_2 by eauto. by intros [= <-].
    + rewrite bool_decide_eq_false_2 by (by intros [? ?]). by intros [= <-].
  - cbn. by intros ->.
Qed.

(** ** One refresh, step by step *)

Lemma rate_call_run {S} (w : World) account (s : S) tr :
  CoinbaseClient.coinbasehttp w "exchange_rate" None
    (currency (acc_native_balance account)) s tr
  = (reply_of w "exchange_rate" account, s,
     tr ++ events_of w "exchange_rate" account).
Proof. by apply coinbasehttp_run. Qed.

Lemma buy_call_run {S} (w : World) account (s : S) tr :
  CoinbaseClient.coinbasehttp w "buy_price"
    (Some (currency (acc_balance account)))
    (currency (acc_native_balance account)) s tr
  = (reply_of w "buy_price" account, s, tr ++ events_of w "buy_price" account).
Proof. by apply coinbasehttp_run. Qed.

Lemma sell_call_run {S} (w : World) account (s : S) tr :
  CoinbaseClient.coinbasehttp w "sell_price"
    (Some (currency (acc_balance account)))
    (currency (acc_native_balance account)) s tr
  = (reply_of w "sell_price" account, s, tr ++ events_of w "sell_price" account).
Proof. by apply coinbasehttp_run. Qed.

Lemma spot_call_run {S} (w : World) account (s : S) tr :
  CoinbaseClient.coinbasehttp w "spot_price"
    (Some (currency (acc_balance account)))
    (currency (acc_native_balance account)) s tr
  = (reply_of w "spot_price" account, s, tr ++ events_of w "spot_price" account).
Proof. by apply coinbasehttp_run. Qed.

Ltac run_monad :=
  cbv beta iota zeta delta
    [mbind M_bind bind mret M_ret ret get modify emit logger raise
     lift_result try_except sdk_call zoom run_local
     sel_AuthenticationError sel_HTTPError].

Section OneRefresh.
Variable w : World.
Variable self : CoinbaseClient.t.
Variable tr : list event.

Lemma update_body_denied msg :
  account_outcome w self = SdkAuthError msg ->
  CoinbaseClient.update_body w self tr
  = (Ret (VBool false), self,
     tr ++ [account_call self;
            Log ERROR ("Update sensor: Auth error (" +:+ msg +:+ ").")]).
Proof.
  unfold account_outcome, account_call, CoinbaseClient.update_body.
  intros H. run_monad. rewrite H. run_monad. by rewrite <- app_assoc.
Qed.

Lemma update_body_fault msg :
  account_outcome w self = SdkFault msg ->
  CoinbaseClient.update_body w self tr
  = (Raise (OtherError msg), self, tr ++ [account_call self]).
Proof.
  unfold account_outcome, account_call, CoinbaseClient.update_body.
  intros H. run_monad. rewrite H. by run_monad.
Qed.

Variable account : Account.
Hypothesis Haccount : account_outcome w self = SdkOk account.

Lemma update_body_other vr :
  acc_type account <> "wallet" ->
  reply_of w "exchange_rate" account = Ret vr ->
  CoinbaseClient.update_body w self tr
  = (Ret VNone,
     CoinbaseClient.set_exch_rate_native_usd vr
       (CoinbaseClient.set_account account self),
     tr ++ account_call self :: events_of w "exchange_rate" account).
Proof.
  revert Haccount.
  unfold account_outcome, account_call, CoinbaseClient.update_body.
  intros H Hty Hr. run_monad. rewrite H. run_monad.
  rewrite rate_call_run, Hr. cbn. rewrite bool_decide_eq_false_2 by done.
  by rewrite <- app_assoc.
Qed.

Lemma update_body_wallet vr vb vs vp :
  acc_type account = "wallet" ->
  reply_of w "exchange_rate" account = Ret vr ->
  reply_of w "buy_price" account = Ret vb ->
  reply_of w "sell_price" account = Ret vs ->
  reply_of w "spot_price" account = Ret vp ->
  CoinbaseClient.update_body w self tr
  = (Ret VNone,
     CoinbaseClient.set_prices vb vs vp vr
       (CoinbaseClient.set_account account self),
     tr ++ account_call self ::
       events_of w "exchange_rate" account ++ events_of w "buy_price" account
       ++ events_of w "sell_price" account ++ events_of w "spot_price" account).
Proof.
  revert Haccount.
  unfold account_outcome, account_call, CoinbaseClient.update_body.
  intros H Hty Hr Hb Hs Hp. run_monad. rewrite H. run_monad.
  rewrite rate_call_run, Hr. cbn -[CoinbaseClient.coinbasehttp].
  rewrite bool_decide_eq_true_2 by done.
  rewrite buy_call_run, Hb, sell_call_run, Hs, spot_call_run, Hp.
  cbn. f_equal. by rewrite <- !app_assoc.
Qed.

(** Once the exchange rate is stored, nothing later in the refresh
    touches it, whatever the three price calls do. *)
Lemma update_body_rate vr r self' tr' :
  reply_of w "exchange_rate" account = Ret vr ->
  CoinbaseClient.update_body w self tr = (r, self', tr') ->
  CoinbaseClient.exch_rate_native_usd self' = vr.
Proof.
  revert Haccount.
  unfold account_outcome, account_call, CoinbaseClient.update_body.
  intros H Hr. run_monad. rewrite H. run_monad.
  rewrite rate_call_run, Hr. cbn -[CoinbaseClient.coinbasehttp].
  case_bool_decide; [|by intros [= <- <- <-]].
  rewrite buy_call_run.
  destruct (reply_of w "buy_price" account); [|by intros [= <- <- <-]].
  rewrite sell_call_run.
  destruct (reply_of w "sell_price" account); [|by intros [= <- <- <-]].
  rewrite spot_call_run.
  destruct (reply_of w "spot_price" account); by intros [= <- <- <-].
Qed.

End OneRefresh.

(** ** The throttle *)

Lemma update_throttled w now self tr :
  throttled now self = true ->
  CoinbaseClient.update w now self tr = (Ret VNone, self, tr).
Proof.
  unfold throttled, CoinbaseClient.update, Throttle, MIN_TIME_BETWEEN_SCANS.
  run_monad. by intros ->.
Qed.

Lemma update_due w now self tr :
  throttled now self = false ->
  CoinbaseClient.update w now self tr
  = CoinbaseClient.update_body w (CoinbaseClient.set_throttle (Some now) self) tr.
Proof.
  unfold throttled, CoinbaseClient.update, Throttle, MIN_TIME_BETWEEN_SCANS.
  run_monad. by intros ->.
Qed.

Lemma answer_of_reply w query account v :
  answer_of w query account = Some v -> reply_of w query account = Ret v.
Proof. apply answer_reply. Qed.

Lemma text_answer_inv w query account :
  text_answer w query account = true ->
  exists s, answer_of w query account = Some (VStr s).
Proof.
  unfold text_answer.
  destruct (answer_of w query account) as [[]|]; try done. eauto.
Qed.

(** ** A whole refresh *)

Lemma update_denied w now self tr msg :
  throttled now self = false ->
  account_outcome w self = SdkAuthError msg ->
  CoinbaseClient.update w now self tr
  = (Ret (VBool false), CoinbaseClient.set_throttle (Some now) self,
     tr ++ [account_call self;
            Log ERROR ("Update sensor: Auth error (" +:+ msg +:+ ").")]).
Proof.
  intros Hdue Hacc. rewrite update_due by done.
  by rewrite (update_body_denied w (CoinbaseClient.set_throttle (Some now) self)
                tr msg Hacc).
Qed.

Lemma update_other w now self tr account rate :
  throttled now self = false ->
  account_outcome w self = SdkOk account ->
  acc_type account <> "wallet" ->
  answer_of w "exchange_rate" account = Some rate ->
  CoinbaseClient.update w now self tr
  = (Ret VNone,
     CoinbaseClient.set_exch_rate_native_usd rate
       (CoinbaseClient.set_account account
          (CoinbaseClient.set_throttle (Some now) self)),
     tr ++ account_call self :: events_of w "exchange_rate" account).
Proof.
  intros Hdue Hacc Hty Hr. rewrite update_due by done.
  by rewrite (update_body_other w (CoinbaseClient.set_throttle (Some now) self) tr
                account Hacc rate Hty
                (answer_of_reply _ _ _ _ Hr)).
Qed.

Lemma update_wallet w now self tr account rate buy sell spot :
  throttled now self = false ->
  account_outcome w self = SdkOk account ->
  acc_type account = "wallet" ->
  answer_of w "exchange_rate" account = Some rate ->
  answer_of w "buy_price" account = Some buy ->
  answer_of w "sell_price" account = Some sell ->
  answer_of w "spot_price" account = Some spot ->
  CoinbaseClient.update w now self tr
  = (Ret VNone,
     CoinbaseClient.set_prices buy sell spot rate
       (CoinbaseClient.set_account account
          (CoinbaseClient.set_throttle (Some now) self)),
     tr ++ account_call self ::
       events_of w "exchange_rate" account ++ events_of w "buy_price" account
       ++ events_of w "sell_price" account ++ events_of w "spot_price" account).
Proof.
  intros Hdue Hacc Hty Hr Hb Hs Hp. rewrite update_due by done.
  by rewrite (update_body_wallet w (CoinbaseClient.set_throttle (Some now) self) tr
                account Hacc rate buy sell spot Hty
                (answer_of_reply _ _ _ _ Hr) (answer_of_reply _ _ _ _ Hb)
                (answer_of_reply _ _ _ _ Hs) (answer_of_reply _ _ _ _ Hp)).
Qed.

(** Under normal remote behaviour a refresh returns, and its effect on
    the client is one of the four of [refresh_effect]. *)
Lemma update_effect w now self tr :
  normal_refresh w self = true ->
  exists v self' tr',
    CoinbaseClient.update w now self tr = (Ret v, self', tr') /\
    refresh_effect w now self self'.
Proof.
  intros Hn. destruct (throttled now self) eqn:Hdue.
  { exists VNone, self, tr. split; [by apply update_throttled|by constructor]. }
  unfold normal_refresh in Hn.
  destruct (account_outcome w self) as [account|msg|msg] eqn:Hacc; [| |done].
  - apply andb_prop in Hn as [Hr Hn].
    apply text_answer_inv in Hr as [rate Hr].
    case_bool_decide as Hty.
    + apply andb_prop in Hn as [Hn Hp]. apply andb_prop in Hn as [Hb Hs].
      apply text_answer_inv in Hb as [buy Hb].
      apply text_answer_inv in Hs as [sell Hs].
      apply text_answer_inv in Hp as [spot Hp].
      eexists _, _, _. split; [by eapply update_wallet|by eapply effect_wallet].
    + eexists _, _, _. split; [by eapply update_other|by eapply effect_other].
  - eexists _, _, _. split; [by eapply update_denied|by eapply effect_denied].
Qed.

(** ** The pricing attributes after a wallet refresh *)

Lemma quoted_by_answer w query account v :
  quoted_by w query account = Some v -> answer_of w query account = Some v.
Proof.
  unfold quoted_by, answer_of, answer, quoted.
  destruct (outcome_of w query account) as [document| |]; [|done..].
  case_bool_decide; [|done].
  destruct (rates_of document) as [rates|]; [|done]. by intros ->.
Qed.

Lemma failed_answer w query account e :
  outcome_of w query account = HttpFailed e ->
  answer_of w query account
  = Some (VStr ("Coinbase API error (" +:+ call_url query account +:+ "): " +:+ e)).
Proof. unfold answer_of. by intros ->. Qed.

Lemma pricing_queries_cases (P : string -> Prop) :
  P "exchange_rate" -> P "buy_price" -> P "sell_price" -> P "spot_price" ->
  forall q, q ∈ pricing_queries -> P q.
Proof.
  intros Hr Hb Hs Hp q Hq. unfold pricing_queries in Hq.
  repeat (apply elem_of_cons in Hq as [->|Hq]; [assumption|]).
  by apply elem_of_nil in Hq.
Qed.

Lemma field_of_set_prices w account buy sell spot rate self :
  answer_of w "exchange_rate" account = Some rate ->
  answer_of w "buy_price" account = Some buy ->
  answer_of w "sell_price" account = Some sell ->
  answer_of w "spot_price" account = Some spot ->
  forall q, q ∈ pricing_queries ->
    Some (field_of q (CoinbaseClient.set_prices buy sell spot rate self))
    = answer_of w q account.
Proof.
  intros Hr Hb Hs Hp. by apply pricing_queries_cases.
Qed.

Lemma remote_calls_app tr1 tr2 :
  remote_calls (tr1 ++ tr2) = remote_calls tr1 ++ remote_calls tr2.
Proof. apply filter_app. Qed.

Lemma remote_calls_events w query account :
  remote_calls (events_of w query account)
  = [CallUrlopen (CoinbaseClient.request (call_url query account))].
Proof.
  unfold events_of, call_events. by destruct (outcome_of w query account).
Qed.

(** ** Invariants of a refresh *)

Lemma effect_identity w now self self' :
  refresh_effect w now self self' ->
  CoinbaseClient.haconf self' = CoinbaseClient.haconf self /\
  CoinbaseClient.account_id self' = CoinbaseClient.account_id self.
Proof. by destruct 1. Qed.

Lemma account_outcome_identity w self self' :
  CoinbaseClient.haconf self' = CoinbaseClient.haconf self ->
  CoinbaseClient.account_id self' = CoinbaseClient.account_id self ->
  account_outcome w self' = account_outcome w self.
Proof. unfold account_outcome. by intros -> ->. Qed.

Lemma effect_invariant w now self self' :
  refresh_effect w now self self' ->
  snapshot_invariant self = true -> snapshot_invariant self' = true.
Proof.
  destruct 1 as [|msg|account rate ? ? Hty|account rate buy sell spot ? ? Hty];
    intros Hinv; try done.
  - unfold snapshot_invariant, is_wallet. cbn.
    by rewrite bool_decide_eq_false_2.
  - unfold snapshot_invariant, is_wallet. cbn.
    by rewrite bool_decide_eq_true_2.
Qed.

Lemma effect_prices_unset w now self self' :
  refresh_effect w now self self' ->
  reports_wallet w self = false ->
  unset (price_fields self) = true -> unset (price_fields self') = true.
Proof.
  destruct 1 as [|msg|account rate ? ? Hty|account rate buy sell spot ? Hacc Hty];
    intros Hrep Hunset; try done.
  unfold reports_wallet in Hrep. rewrite Hacc in Hrep.
  by rewrite bool_decide_eq_true_2 in Hrep.
Qed.

Lemma refreshes_identity ticks : forall self tr,
  Forall (fun t => normal_refresh t.2 self = true) ticks ->
  CoinbaseClient.haconf (refreshes ticks self tr).1 = CoinbaseClient.haconf self /\
  CoinbaseClient.account_id (refreshes ticks self tr).1 = CoinbaseClient.account_id self.
Proof.
  induction ticks as [|[now w] rest IH]; intros self tr Hn; [done|].
  apply Forall_cons in Hn as [Hw Hrest]. cbn in Hw. cbn [refreshes].
  destruct (update_effect w now self tr Hw) as (v & self' & tr' & -> & Heff).
  apply effect_identity in Heff as [Hconf Hid].
  destruct (IH self' tr') as [IH1 IH2].
  { eapply Forall_impl; [exact Hrest|]. intros t Ht. cbn in *.
    unfold normal_refresh in *. by rewrite (account_outcome_identity _ self). }
  split; congruence.
Qed.

Lemma refreshes_invariant ticks : forall self tr,
  Forall (fun t => normal_refresh t.2 self = true) ticks ->
  snapshot_invariant self = true ->
  snapshot_invariant (refreshes ticks self tr).1 = true.
Proof.
  induction ticks as [|[now w] rest IH]; intros self tr Hn Hinv; [done|].
  apply Forall_cons in Hn as [Hw Hrest]. cbn in Hw. cbn [refreshes].
  destruct (update_effect w now self tr Hw) as (v & self' & tr' & -> & Heff).
  pose proof (effect_identity _ _ _ _ Heff) as [Hconf Hid].
  apply IH; [|by eapply effect_invariant].
  eapply Forall_impl; [exact Hrest|]. intros t Ht. cbn in *.
  unfold normal_refresh in *. by rewrite (account_outcome_identity _ self).
Qed.

Lemma refreshes_prices_unset ticks : forall self tr,
  Forall (fun t => normal_refresh t.2 self = true) ticks ->
  Forall (fun t => reports_wallet t.2 self = false) ticks ->
  unset (price_fields self) = true ->
  unset (price_fields (refreshes ticks self tr).1) = true.
Proof.
  induction ticks as [|[now w] rest IH]; intros self tr Hn Hnw Hunset; [done|].
  apply Forall_cons in Hn as [Hw Hrest]. cbn in Hw.
  apply Forall_cons in Hnw as [Hrep Hnw]. cbn in Hrep. cbn [refreshes].
  destruct (update_effect w now self tr Hw) as (v & self' & tr' & -> & Heff).
  pose proof (effect_identity _ _ _ _ Heff) as [Hconf Hid].
  apply IH; [| |by eapply effect_prices_unset].
  - eapply Forall_impl; [exact Hrest|]. intros t Ht. cbn in *.
    unfold normal_refresh in *. by rewrite (account_outcome_identity _ self).
  - eapply Forall_impl; [exact Hnw|]. intros t Ht. cbn in *.
    unfold reports_wallet in *. by rewrite (account_outcome_identity _ self).
Qed.

(** ** The entity *)

Lemma balance_run native client tr :
  CoinbaseClient.balance native client tr
  = (Ret (shown_balance native client), client, tr).
Proof. unfold CoinbaseClient.balance, shown_balance. run_monad. by destruct native. Qed.

Lemma sensor_init_run {S} w now config name id native (st : S) tr v client tr' :
  CoinbaseClient.update w now (CoinbaseClient.init config id) tr = (Ret v, client, tr') ->
  CoinbaseSensor.init w now config name id native st tr
  = (Ret (sensor_of name id native client), st, tr').
Proof.
  intros Hrun. unfold CoinbaseSensor.init. run_monad. cbn [CoinbaseSensor.data].
  rewrite Hrun. run_monad. cbn [CoinbaseSensor.data CoinbaseSensor.set_data
    CoinbaseSensor.set_unit_of_measurement]. rewrite balance_run. by destruct native.
Qed.

Lemma sensor_update_run w now sensor tr r client tr' :
  CoinbaseClient.update w now (CoinbaseSensor.data sensor) tr = (r, client, tr') ->
  CoinbaseSensor.update w now sensor tr
  = match r with
    | Ret _ =>
        (Ret tt,
         CoinbaseSensor.set_state
           (shown_balance (CoinbaseSensor.native sensor) client)
           (CoinbaseSensor.set_data client sensor), tr')
    | Raise e => (Raise e, CoinbaseSensor.set_data client sensor, tr')
    end.
Proof.
  intros Hrun. unfold CoinbaseSensor.update. run_monad. rewrite Hrun.
  destruct r; [|done]. cbn [CoinbaseSensor.data CoinbaseSensor.set_data
    CoinbaseSensor.native]. by rewrite balance_run.
Qed.

Lemma blank_sensor name id native config o :
  blank (sensor_of name id native
           (CoinbaseClient.set_throttle o (CoinbaseClient.init config id))).
Proof.
  split; [by destruct native|]. split; [by destruct native|].
  intros k v Hk Hne. unfold CoinbaseSensor.state_attributes in Hk. cbn in Hk.
  repeat (rewrite lookup_insert in Hk;
          destruct (decide _) as [?|?]; [congruence|]).
  by rewrite lookup_empty in Hk.
Qed.

(** ** Bootstrap *)

Section Bootstrap.
Variable w : World.
Variable now : Z.
Variable config : Config.

Lemma sensor_init_normal (account : Account) (host : Host) tr :
  normal_refresh w (CoinbaseClient.init config (acc_id account)) = true ->
  exists sensor tr',
    CoinbaseSensor.init w now config ("Coinbase " +:+ acc_name account)
      (acc_id account) (native_balance config) host tr
    = (Ret sensor, host, tr') /\
    built_for w config sensor account.
Proof.
  intros Hn.
  destruct (update_effect w now _ tr Hn) as (v & client & tr' & Hrun & Heff).
  exists (sensor_of ("Coinbase " +:+ acc_name account) (acc_id account)
            (native_balance config) client), tr'.
  split; [by eapply sensor_init_run|]. split.
  - destruct (effect_identity _ _ _ _ Heff) as [Hconf Hid].
    by repeat split.
  - intros [msg Hmsg].
    assert (Hacc : account_outcome w (CoinbaseClient.init config (acc_id account))
                   = SdkAuthError msg) by exact Hmsg.
    destruct Heff as [Hth|?|? ? ? Hok|? ? ? ? ? ? Hok];
      [done|apply blank_sensor|congruence..].
Qed.

Lemma setup_accounts_run (accounts : list Account) :
  (forall a, a ∈ listed config accounts ->
             normal_refresh w (CoinbaseClient.init config (acc_id a)) = true) ->
  forall sensors (host : Host) tr,
  exists built tr',
    setup_accounts w now config accounts sensors host tr
    = (Ret (sensors ++ built), host, tr') /\
    Forall2 (built_for w config) built (listed config accounts).
Proof.
  unfold listed.
  induction accounts as [|a rest IH]; intros Hn sensors host tr.
  { exists [], tr. split; [by rewrite app_nil_r|constructor]. }
  cbn [setup_accounts]. run_monad.
  destruct (decide (acc_name a ∉ exclude_wallet config)) as [Hin|Hex].
  - rewrite bool_decide_eq_true_2 by done.
    rewrite filter_cons_True in Hn |- * by done.
    destruct (sensor_init_normal a host tr) as (sensor & tr1 & -> & Hs).
    { apply Hn. by left. }
    destruct (IH (fun b Hb => Hn b (list_elem_of_further _ _ _ Hb))
                 (sensors ++ [sensor]) host
                 (tr1 ++ [Log DEBUG ("Sensor setup: Added sensor for account '"
                                     +:+ acc_name a +:+ "'.")]))
      as (built & tr2 & -> & Hbuilt).
    exists (sensor :: built), tr2. split; [by rewrite <- app_assoc|].
    by constructor.
  - rewrite bool_decide_eq_false_2 by done.
    rewrite filter_cons_False in Hn |- * by done.
    by apply IH.
Qed.

Lemma setup_platform_run (accounts : list Account) (host : Host) tr :
  get_accounts w (api_key config) (api_secret config) = SdkOk accounts ->
  (forall a, a ∈ listed config accounts ->
             normal_refresh w (CoinbaseClient.init config (acc_id a)) = true) ->
  exists sensors tr',
    setup_platform w now config host tr = (Ret VNone, host ++ sensors, tr') /\
    Forall2 (built_for w config) sensors (listed config accounts).
Proof.
  intros Hlist Hn. unfold setup_platform. run_monad. rewrite Hlist. run_monad.
  destruct (setup_accounts_run accounts Hn [] host
              ((tr ++ [CallGetAccounts (api_key config) (api_secret config)])
               ++ [Log DEBUG "Sensor setup: Connecion to Coinbase established."]))
    as (built & tr' & -> & Hbuilt).
  unfold add_devices. run_monad. eauto.
Qed.

End Bootstrap.

(** ** Whatever the remote side does *)

Lemma update_body_identity w self tr :
  CoinbaseClient.haconf (CoinbaseClient.update_body w self tr).1.2
    = CoinbaseClient.haconf self /\
  CoinbaseClient.account_id (CoinbaseClient.update_body w self tr).1.2
    = CoinbaseClient.account_id self.
Proof.
  unfold CoinbaseClient.update_body. run_monad.
  destruct (get_account w _ _ _) as [account|msg|msg]; run_monad; [|done..].
  rewrite rate_call_run.
  destruct (reply_of w "exchange_rate" account); [|done].
  cbn -[CoinbaseClient.coinbasehttp]. case_bool_decide; [|done].
  rewrite buy_call_run. destruct (reply_of w "buy_price" account); [|done].
  rewrite sell_call_run. destruct (reply_of w "sell_price" account); [|done].
  rewrite spot_call_run. by destruct (reply_of w "spot_price" account).
Qed.

Lemma update_identity w now self tr :
  CoinbaseClient.haconf (CoinbaseClient.update w now self tr).1.2
    = CoinbaseClient.haconf self /\
  CoinbaseClient.account_id (CoinbaseClient.update w now self tr).1.2
    = CoinbaseClient.account_id self.
Proof.
  destruct (throttled now self) eqn:Hdue.
  - by rewrite update_throttled.
  - rewrite update_due by done.
    apply (update_body_identity w (CoinbaseClient.set_throttle (Some now) self)).
Qed.

Lemma sensor_init_cases {S} w now config name id native (st : S) tr :
  CoinbaseSensor.init w now config name id native st tr
  = match CoinbaseClient.update w now (CoinbaseClient.init config id) tr with
    | (Ret _, client, tr') => (Ret (sensor_of name id native client), st, tr')
    | (Raise e, _, tr') => (Raise e, st, tr')
    end.
Proof.
  destruct (CoinbaseClient.update w now (CoinbaseClient.init config id) tr)
    as [[[v|e] client] tr'] eqn:Hrun.
  - by eapply sensor_init_run.
  - unfold CoinbaseSensor.init. run_monad. cbn [CoinbaseSensor.data].
    by rewrite Hrun.
Qed.

Lemma sensor_init_adapts w now config account (host : Host) tr sensor host' tr' :
  CoinbaseSensor.init w now config ("Coinbase " +:+ acc_name account)
    (acc_id account) (native_balance config) host tr = (Ret sensor, host', tr') ->
  host' = host /\ adapts config sensor account.
Proof.
  rewrite sensor_init_cases.
  pose proof (update_identity w now (CoinbaseClient.init config (acc_id account)) tr)
    as [Hconf Hid].
  destruct (CoinbaseClient.update w now _ tr) as [[[v|e] client] tr0]; [|done].
  intros [= <- <- <-]. by repeat split.
Qed.



(** * The claims *)

(** C1 (the throttle is modelled from the specification).  A refresh asked
    for less than 60 seconds after the previous one returns at once with
    [None]: the client, and so every snapshot field, is exactly what it
    was, and the trace is unchanged, so no remote wallet or pricing call
    was issued. *)
Theorem C1_throttled_refresh_is_noop (w : World) (now last : Z)
    (self : CoinbaseClient.t) (tr : list event) :
  CoinbaseClient._throttle self = Some last ->
  now - last < 60 ->
  CoinbaseClient.update w now self tr = (Ret VNone, self, tr).
Proof.
  intros Hlast Hlt. apply update_throttled. unfold throttled.
  rewrite Hlast. by apply bool_decide_eq_true_2.
Qed.

Lemma C1_witness :
  CoinbaseClient._throttle Sample.poller = Some 0 /\ 59 - 0 < 60 /\
  CoinbaseClient.update Sample.world_spot_down 59 Sample.poller []
  = (Ret VNone, Sample.poller, []).
Proof.
  split; [reflexivity|]. split; [lia|].
  apply (C1_throttled_refresh_is_noop Sample.world_spot_down 59 0);
    [reflexivity|lia].
Defined.

(** C2.  When [get_account] fails with an authentication error, the
    refresh returns a value (it does not raise) and the thirteen snapshot
    fields, the configuration and the account id are what they were. *)
Theorem C2_auth_failure_keeps_snapshot (w : World) (now : Z)
    (self : CoinbaseClient.t) (tr : list event) (msg : string) :
  account_outcome w self = SdkAuthError msg ->
  exists r self' tr',
    CoinbaseClient.update w now self tr = (Ret r, self', tr') /\
    CoinbaseClient.snapshot self' = CoinbaseClient.snapshot self /\
    CoinbaseClient.haconf self' = CoinbaseClient.haconf self /\
    CoinbaseClient.account_id self' = CoinbaseClient.account_id self.
Proof.
  intros Hacc. destruct (throttled now self) eqn:Hdue.
  - exists VNone, self, tr. by rewrite update_throttled.
  - eexists _, _, _. by rewrite (update_denied w now self tr msg).
Qed.

Lemma C2_witness :
  account_outcome Sample.world_denied Sample.poller
    = SdkAuthError "invalid api key" /\
  exists r self' tr',
    CoinbaseClient.update Sample.world_denied 60 Sample.poller [] = (Ret r, self', tr') /\
    CoinbaseClient.snapshot self' = CoinbaseClient.snapshot Sample.poller /\
    CoinbaseClient.haconf self' = CoinbaseClient.haconf Sample.poller /\
    CoinbaseClient.account_id self' = CoinbaseClient.account_id Sample.poller.
Proof.
  split; [reflexivity|].
  apply (C2_auth_failure_keeps_snapshot Sample.world_denied 60 Sample.poller []
           "invalid api key").
  reflexivity.
Defined.

(** C6.  When the exchange-rates document has a rates map without the
    native currency, [coinbasehttp] returns, as an ordinary value, the text
    [Currency "XYZ" not supported by Coinbase] built from that currency
    code, and the refresh stores it in [exch_rate_native_usd]. *)
Theorem C6_unsupported_currency (w : World) (now : Z) (self : CoinbaseClient.t)
    (tr : list event) (account : Account) (document : value)
    (rates : gmap string value) :
  throttled now self = false ->
  account_outcome w self = SdkOk account ->
  urlopen w (CoinbaseClient.request rate_url) = Http2xx document ->
  rates_of document = Some rates ->
  rates !! currency (acc_native_balance account) = None ->
  let text :=
    "Currency " +:+ dquote +:+ currency (acc_native_balance account)
      +:+ dquote +:+ " not supported by Coinbase" in
  (forall (S : Type) (s : S) (tr0 : list event),
     CoinbaseClient.coinbasehttp w "exchange_rate" None
       (currency (acc_native_balance account)) s tr0
     = (Ret (VStr text), s, tr0 ++ [CallUrlopen (CoinbaseClient.request rate_url)]))
  /\ CoinbaseClient.exch_rate_native_usd
       (CoinbaseClient.update w now self tr).1.2 = VStr text.
Proof.
  intros Hdue Hacc Hurl Hrates Hnone text.
  assert (Hans : answer_of w "exchange_rate" account = Some (VStr text)).
  { unfold answer_of, outcome_of, answer. cbn. change (call_url _ _) with rate_url.
    by rewrite Hurl, Hrates, Hnone. }
  split.
  - intros S s tr0. rewrite rate_call_run.
    rewrite (answer_of_reply _ _ _ _ Hans).
    unfold events_of, outcome_of, call_events.
    change (call_url _ _) with rate_url. by rewrite Hurl.
  - rewrite update_due by done.
    destruct (CoinbaseClient.update_body w _ tr) as [[r self'] tr'] eqn:Hrun.
    cbn. eapply (update_body_rate w (CoinbaseClient.set_throttle (Some now) self)
                   tr account Hacc); [|exact Hrun].
    by apply answer_of_reply.
Qed.

Lemma C6_witness :
  throttled 0 (CoinbaseClient.init Sample.config "a3") = false /\
  account_outcome Sample.world_xyz (CoinbaseClient.init Sample.config "a3")
    = SdkOk Sample.xyz_account /\
  Sample.rates !! "XYZ" = None /\
  CoinbaseClient.exch_rate_native_usd
    (CoinbaseClient.update Sample.world_xyz 0
       (CoinbaseClient.init Sample.config "a3") []).1.2
  = VStr ("Currency " +:+ dquote +:+ "XYZ" +:+ dquote +:+ " not supported by Coinbase").
Proof.
  assert (H1 : throttled 0 (CoinbaseClient.init Sample.config "a3") = false)
    by reflexivity.
  assert (H2 : account_outcome Sample.world_xyz (CoinbaseClient.init Sample.config "a3")
               = SdkOk Sample.xyz_account) by reflexivity.
  assert (H3 : urlopen Sample.world_xyz (CoinbaseClient.request rate_url)
               = Http2xx (Sample.rates_document Sample.rates)) by reflexivity.
  assert (H4 : rates_of (Sample.rates_document Sample.rates) = Some Sample.rates)
    by reflexivity.
  assert (H5 : Sample.rates !! currency (acc_native_balance Sample.xyz_account) = None)
    by reflexivity.
  split; [exact H1|]. split; [exact H2|]. split; [exact H5|].
  exact (proj2 (C6_unsupported_currency Sample.world_xyz 0
                  (CoinbaseClient.init Sample.config "a3") [] Sample.xyz_account
                  (Sample.rates_document Sample.rates) Sample.rates
                  H1 H2 H3 H4 H5)).
Defined.

(** C8.  When listing the accounts fails with an authentication error,
    [setup_platform] returns [False] to the host; the registry of entities
    is untouched, and the only events are the listing call and the error
    line, so no sensor was constructed (a constructor would have called
    [get_account]) and none was registered. *)
Theorem C8_setup_auth_failure (w : World) (now : Z) (config : Config)
    (host : Host) (tr : list event) (msg : string) :
  get_accounts w (api_key config) (api_secret config) = SdkAuthError msg ->
  setup_platform w now config host tr
  = (Ret (VBool false), host,
     tr ++ [CallGetAccounts (api_key config) (api_secret config);
            Log ERROR ("Sensor setup: Coinbase Auth error (" +:+ msg +:+ ")")]).
Proof.
  intros H. unfold setup_platform. run_monad. rewrite H. run_monad.
  by rewrite <- app_assoc.
Qed.

Lemma C8_witness :
  get_accounts Sample.world_denied (api_key Sample.config) (api_secret Sample.config)
    = SdkAuthError "invalid api key" /\
  setup_platform Sample.world_denied 0 Sample.config [] []
  = (Ret (VBool false), [],
     [CallGetAccounts "key" "secret";
      Log ERROR "Sensor setup: Coinbase Auth error (invalid api key)"]).
Proof.
  split; [reflexivity|].
  apply (C8_setup_auth_failure Sample.world_denied 0 Sample.config [] []
           "invalid api key").
  reflexivity.
Defined.

(** C3.  For a wallet account, when one of the four pricing calls gets a
    non-2xx response while each other call ends in an HTTP error or in a
    document of the contract, the refresh returns [None] without raising,
    the attribute of the failed call holds the error text, which contains
    the request URL, and every other pricing attribute is exactly what its
    own call answers. *)
Theorem C3_failed_pricing_call_is_isolated (w : World) (now : Z)
    (self : CoinbaseClient.t) (tr : list event) (account : Account)
    (query e : string) :
  throttled now self = false ->
  account_outcome w self = SdkOk account ->
  acc_type account = "wallet" ->
  query ∈ pricing_queries ->
  outcome_of w query account = HttpFailed e ->
  (forall q, q ∈ pricing_queries -> q <> query ->
             is_Some (answer_of w q account)) ->
  exists self' tr',
    CoinbaseClient.update w now self tr = (Ret VNone, self', tr') /\
    field_of query self'
    = VStr ("Coinbase API error (" +:+ call_url query account +:+ "): " +:+ e) /\
    forall q, q ∈ pricing_queries -> q <> query ->
              Some (field_of q self') = answer_of w q account.
Proof.
  intros Hdue Hacc Hty Hq Hout Hothers.
  pose proof (failed_answer w query account e Hout) as Hans.
  assert (Hall : forall q, q ∈ pricing_queries -> is_Some (answer_of w q account)).
  { intros q Hin. destruct (decide (q = query)) as [->|Hne]; [by rewrite Hans|eauto]. }
  destruct (Hall "exchange_rate") as [rate Hr]; [unfold pricing_queries; by repeat constructor|].
  destruct (Hall "buy_price") as [buy Hb]; [unfold pricing_queries; by repeat constructor|].
  destruct (Hall "sell_price") as [sell Hs]; [unfold pricing_queries; by repeat constructor|].
  destruct (Hall "spot_price") as [spot Hp]; [unfold pricing_queries; by repeat constructor|].
  eexists _, _. split; [by eapply update_wallet|].
  pose proof (field_of_set_prices w account buy sell spot rate
                (CoinbaseClient.set_account account
                   (CoinbaseClient.set_throttle (Some now) self))
                Hr Hb Hs Hp) as Hfields.
  split.
  - specialize (Hfields query Hq). rewrite Hans in Hfields. by injection Hfields.
  - intros q Hin _. by apply Hfields.
Qed.

Lemma C3_witness :
  outcome_of Sample.world_spot_down "spot_price" Sample.btc_wallet
    = HttpFailed "HTTP Error 500: Internal Server Error" /\
  exists self' tr',
    CoinbaseClient.update Sample.world_spot_down 0
      (CoinbaseClient.init Sample.config "a1") [] = (Ret VNone, self', tr') /\
    field_of "spot_price" self'
    = VStr ("Coinbase API error (" +:+ call_url "spot_price" Sample.btc_wallet
            +:+ "): " +:+ "HTTP Error 500: Internal Server Error") /\
    forall q, q ∈ pricing_queries -> q <> "spot_price" ->
      Some (field_of q self') = answer_of Sample.world_spot_down q Sample.btc_wallet.
Proof.
  split; [reflexivity|].
  apply (C3_failed_pricing_call_is_isolated Sample.world_spot_down 0
           (CoinbaseClient.init Sample.config "a1") [] Sample.btc_wallet
           "spot_price" "HTTP Error 500: Internal Server Error").
  - reflexivity.
  - reflexivity.
  - reflexivity.
  - unfold pricing_queries. by repeat constructor.
  - reflexivity.
  - apply (pricing_queries_cases
             (fun q => q <> "spot_price" ->
                       is_Some (answer_of Sample.world_spot_down q Sample.btc_wallet))).
    + intros _. eexists. reflexivity.
    + intros _. eexists. reflexivity.
    + intros _. eexists. reflexivity.
    + intros Hne. by destruct Hne.
Defined.

(** C5.  A refresh that is not throttled, gets the account and meets
    normal remote behaviour returns [None]; the remote calls it makes are
    [get_account], then the exchange-rates request (for every account
    kind), then, exactly when the kind is wallet, the buy, sell and spot
    requests for the balance-currency/native-currency pair.  For a wallet
    whose four calls all get a 2xx response, the four pricing attributes
    are the values those responses quote. *)
Theorem C5_refresh_calls_and_prices (w : World) (now : Z)
    (self : CoinbaseClient.t) (tr : list event) (account : Account) :
  throttled now self = false ->
  account_outcome w self = SdkOk account ->
  normal_refresh w self = true ->
  let cur := currency (acc_balance account) in
  let cur_native := currency (acc_native_balance account) in
  exists self' tr',
    CoinbaseClient.update w now self tr = (Ret VNone, self', tr ++ tr') /\
    remote_calls tr'
    = account_call self ::
      CallUrlopen (CoinbaseClient.request rate_url) ::
      (if bool_decide (acc_type account = "wallet") then
         [CallUrlopen (CoinbaseClient.request (price_url cur cur_native "buy"));
          CallUrlopen (CoinbaseClient.request (price_url cur cur_native "sell"));
          CallUrlopen (CoinbaseClient.request (price_url cur cur_native "spot"))]
       else []) /\
    forall rate buy sell spot,
      acc_type account = "wallet" ->
      quoted_by w "exchange_rate" account = Some rate ->
      quoted_by w "buy_price" account = Some buy ->
      quoted_by w "sell_price" account = Some sell ->
      quoted_by w "spot_price" account = Some spot ->
      CoinbaseClient.exch_rate_native_usd self' = rate /\
      CoinbaseClient.buy_price self' = buy /\
      CoinbaseClient.sell_price self' = sell /\
      CoinbaseClient.spot_price self' = spot.
Proof.
  intros Hdue Hacc Hn cur cur_native. unfold normal_refresh in Hn.
  rewrite Hacc in Hn. apply andb_prop in Hn as [Hr Hn].
  apply text_answer_inv in Hr as [rate Hr].
  case_bool_decide as Hty.
  - apply andb_prop in Hn as [Hn Hp]. apply andb_prop in Hn as [Hb Hs].
    apply text_answer_inv in Hb as [buy Hb].
    apply text_answer_inv in Hs as [sell Hs].
    apply text_answer_inv in Hp as [spot Hp].
    eexists _, _. split; [by eapply update_wallet|]. split.
    + change (account_call self :: ?l) with ([account_call self] ++ l).
      by rewrite !remote_calls_app, !remote_calls_events.
    + intros rate' buy' sell' spot' _ Hr' Hb' Hs' Hp'.
      apply quoted_by_answer in Hr', Hb', Hs', Hp'.
      rewrite Hr in Hr'. rewrite Hb in Hb'. rewrite Hs in Hs'. rewrite Hp in Hp'.
      by injection Hr' as <-; injection Hb' as <-; injection Hs' as <-;
         injection Hp' as <-.
  - eexists _, _. split; [by eapply update_other|]. split.
    + change (account_call self :: ?l) with ([account_call self] ++ l).
      by rewrite !remote_calls_app, !remote_calls_events.
    + by intros rate' buy' sell' spot' Hty'.
Qed.

Lemma C5_witness :
  normal_refresh Sample.world_wallet (CoinbaseClient.init Sample.config "a1") = true /\
  exists self' tr',
    CoinbaseClient.update Sample.world_wallet 0
      (CoinbaseClient.init Sample.config "a1") [] = (Ret VNone, self', [] ++ tr') /\
    remote_calls tr'
    = [CallGetAccount "key" "secret" "a1";
       CallUrlopen (CoinbaseClient.request rate_url);
       CallUrlopen (CoinbaseClient.request (price_url "BTC" "USD" "buy"));
       CallUrlopen (CoinbaseClient.request (price_url "BTC" "USD" "sell"));
       CallUrlopen (CoinbaseClient.request (price_url "BTC" "USD" "spot"))] /\
    CoinbaseClient.exch_rate_native_usd self' = VStr "1.0" /\
    CoinbaseClient.buy_price self' = VStr "6060.00" /\
    CoinbaseClient.sell_price self' = VStr "5940.00" /\
    CoinbaseClient.spot_price self' = VStr "6000.00".
Proof.
  split; [reflexivity|].
  destruct (C5_refresh_calls_and_prices Sample.world_wallet 0
              (CoinbaseClient.init Sample.config "a1") [] Sample.btc_wallet
              eq_refl eq_refl eq_refl) as (self' & tr' & Hrun & Hcalls & Hprices).
  exists self', tr'. split; [exact Hrun|]. split; [exact Hcalls|].
  apply Hprices; reflexivity.
Defined.

(** C4, as written, fails: after one successful refresh of a fiat account
    the kind is fiat and yet the pricing field [exch_rate_native_usd] is
    set, so the snapshot is neither empty nor "populated for its kind with
    the pricing fields unset". *)
Lemma C4_counterexample :
  CoinbaseClient.update Sample.world_fiat 0 (CoinbaseClient.init Sample.config "a2") []
  = (Ret VNone,
     (refreshes [(0, Sample.world_fiat)] (CoinbaseClient.init Sample.config "a2") []).1,
     [CallGetAccount "key" "secret" "a2";
      CallUrlopen (CoinbaseClient.request rate_url)]) /\
  CoinbaseClient.account_type
    (refreshes [(0, Sample.world_fiat)] (CoinbaseClient.init Sample.config "a2") []).1
  = VStr "fiat" /\
  CoinbaseClient.exch_rate_native_usd
    (refreshes [(0, Sample.world_fiat)] (CoinbaseClient.init Sample.config "a2") []).1
  = VStr "1.0" /\
  snapshot_as_specified
    (refreshes [(0, Sample.world_fiat)] (CoinbaseClient.init Sample.config "a2") []).1
  = false.
Proof. by vm_compute. Qed.

(** The three price fields are only written on a wallet refresh: a later
    refresh that reports another kind leaves the earlier prices in place. *)
Lemma prices_kept_when_kind_changes :
  let self :=
    (refreshes [(0, Sample.world_wallet); (60, Sample.world_wallet_as_fiat)]
       (CoinbaseClient.init Sample.config "a1") []).1 in
  CoinbaseClient.account_type self = VStr "fiat" /\
  CoinbaseClient.native_balance_amount self = VStr "3100.00" /\
  price_fields self = [VStr "6060.00"; VStr "5940.00"; VStr "6000.00"].
Proof. by vm_compute. Qed.

(** C4, amended.  Starting from a new poller and under normal remote
    behaviour, after any sequence of refreshes the snapshot is either empty
    or has its nine account fields and the exchange rate set, and the three
    prices too when its kind is wallet; the three prices stay unset as long
    as no refresh reported the kind wallet.  A refresh that gets the
    account overwrites the nine account fields and the exchange rate, and
    overwrites the three prices exactly when the kind is wallet, leaving
    them as they were otherwise. *)
Theorem C4_snapshot_invariant (config : Config) (id : string)
    (ticks : list (Z * World)) (tr : list event) :
  Forall (fun t => normal_refresh t.2 (CoinbaseClient.init config id) = true) ticks ->
  snapshot_invariant (refreshes ticks (CoinbaseClient.init config id) tr).1 = true /\
  (Forall (fun t => reports_wallet t.2 (CoinbaseClient.init config id) = false) ticks ->
   unset (price_fields (refreshes ticks (CoinbaseClient.init config id) tr).1) = true) /\
  (forall w now self tr0 account,
     throttled now self = false ->
     account_outcome w self = SdkOk account ->
     normal_refresh w self = true ->
     exists self' tr',
       CoinbaseClient.update w now self tr0 = (Ret VNone, self', tr') /\
       account_fields self' = account_values account /\
       Some (CoinbaseClient.exch_rate_native_usd self')
         = answer_of w "exchange_rate" account /\
       if bool_decide (acc_type account = "wallet") then
         Some (CoinbaseClient.buy_price self') = answer_of w "buy_price" account /\
         Some (CoinbaseClient.sell_price self') = answer_of w "sell_price" account /\
         Some (CoinbaseClient.spot_price self') = answer_of w "spot_price" account
       else price_fields self' = price_fields self).
Proof.
  intros Hn. split; [by apply refreshes_invariant|].
  split; [by intros Hnw; apply refreshes_prices_unset|].
  clear. intros w now self tr account Hdue Hacc Hn.
  unfold normal_refresh in Hn. rewrite Hacc in Hn.
  apply andb_prop in Hn as [Hr Hn].
  apply text_answer_inv in Hr as [rate Hr].
  case_bool_decide as Hty.
  - apply andb_prop in Hn as [Hn Hp]. apply andb_prop in Hn as [Hb Hs].
    apply text_answer_inv in Hb as [buy Hb].
    apply text_answer_inv in Hs as [sell Hs].
    apply text_answer_inv in Hp as [spot Hp].
    eexists _, _. split; [by eapply update_wallet|].
    by rewrite Hr, Hb, Hs, Hp.
  - eexists _, _. split; [by eapply update_other|]. by rewrite Hr.
Qed.

Lemma C4_witness :
  Forall (fun t => normal_refresh t.2 (CoinbaseClient.init Sample.config "a2") = true)
    [(0, Sample.world_fiat); (30, Sample.world_fiat); (70, Sample.world_denied);
     (200, Sample.world_fiat)] /\
  Forall (fun t => reports_wallet t.2 (CoinbaseClient.init Sample.config "a2") = false)
    [(0, Sample.world_fiat); (30, Sample.world_fiat); (70, Sample.world_denied);
     (200, Sample.world_fiat)] /\
  snapshot_invariant
    (refreshes [(0, Sample.world_fiat); (30, Sample.world_fiat);
                (70, Sample.world_denied); (200, Sample.world_fiat)]
       (CoinbaseClient.init Sample.config "a2") []).1 = true /\
  unset (price_fields
    (refreshes [(0, Sample.world_fiat); (30, Sample.world_fiat);
                (70, Sample.world_denied); (200, Sample.world_fiat)]
       (CoinbaseClient.init Sample.config "a2") []).1) = true /\
  exists self' tr',
    CoinbaseClient.update Sample.world_wallet_as_fiat 60 Sample.poller []
      = (Ret VNone, self', tr') /\
    account_fields self' = account_values Sample.btc_as_fiat /\
    price_fields self' = price_fields Sample.poller.
Proof.
  assert (Hn : Forall (fun t => normal_refresh t.2
                                  (CoinbaseClient.init Sample.config "a2") = true)
                 [(0, Sample.world_fiat); (30, Sample.world_fiat);
                  (70, Sample.world_denied); (200, Sample.world_fiat)]).
  { repeat constructor. }
  assert (Hnw : Forall (fun t => reports_wallet t.2
                                   (CoinbaseClient.init Sample.config "a2") = false)
                  [(0, Sample.world_fiat); (30, Sample.world_fiat);
                   (70, Sample.world_denied); (200, Sample.world_fiat)]).
  { repeat constructor. }
  destruct (C4_snapshot_invariant Sample.config "a2" _ [] Hn) as (Hinv & Hunset & Hstep).
  split; [exact Hn|]. split; [exact Hnw|]. split; [exact Hinv|].
  split; [exact (Hunset Hnw)|].
  destruct (Hstep Sample.world_wallet_as_fiat 60 Sample.poller [] Sample.btc_as_fiat
              eq_refl eq_refl eq_refl) as (self' & tr' & Hrun & Hfields & _ & Hprices).
  exists self', tr'. split; [exact Hrun|]. split; [exact Hfields|]. exact Hprices.
Defined.




(** C9, as written, fails for a refresh tick that raises: when the
    pricing endpoint cannot be reached, the poller has already stored the
    new native amount (3100.00) when the exception leaves
    [CoinbaseSensor.update], and the state of the entity still is the
    amount of the tick before (3000.00). *)
Lemma C9_counterexample :
  CoinbaseSensor.state (sensor_of "Coinbase Checking" "a1" true Sample.poller)
  = VStr "3000.00" /\
  (CoinbaseSensor.update Sample.world_offline 60
     (sensor_of "Coinbase Checking" "a1" true Sample.poller) []).1.1
  = Raise (OtherError "URLError: timed out") /\
  CoinbaseSensor.state
    (CoinbaseSensor.update Sample.world_offline 60
       (sensor_of "Coinbase Checking" "a1" true Sample.poller) []).1.2
  = VStr "3000.00" /\
  (CoinbaseClient.balance true
     (CoinbaseSensor.data
        (CoinbaseSensor.update Sample.world_offline 60
           (sensor_of "Coinbase Checking" "a1" true Sample.poller) []).1.2)
     []).1.1
  = Ret (VStr "3100.00").
Proof. by vm_compute. Qed.

(** C9, amended.  [balance(True)] returns the native balance amount and
    [balance(False)] the balance amount, leaving the client and the trace
    as they were.  After an entity refresh that returns, the state of the
    entity is [balance(native)] of its poller; and under normal remote
    behaviour the refresh does return. *)
Theorem C9_balance_and_state :
  (forall client tr,
     CoinbaseClient.balance true client tr
     = (Ret (CoinbaseClient.native_balance_amount client), client, tr) /\
     CoinbaseClient.balance false client tr
     = (Ret (CoinbaseClient.balance_amount client), client, tr)) /\
  (forall w now sensor tr r sensor' tr',
     CoinbaseSensor.update w now sensor tr = (r, sensor', tr') ->
     returns r = true ->
     CoinbaseClient.balance (CoinbaseSensor.native sensor')
       (CoinbaseSensor.data sensor') tr'
     = (Ret (CoinbaseSensor.state sensor'), CoinbaseSensor.data sensor', tr')) /\
  (forall w now sensor tr,
     normal_refresh w (CoinbaseSensor.data sensor) = true ->
     exists sensor' tr',
       CoinbaseSensor.update w now sensor tr = (Ret tt, sensor', tr')).
Proof.
  split; [intros client tr; by rewrite !balance_run|]. split.
  - intros w now sensor tr r sensor' tr' Hrun Hret.
    destruct (CoinbaseClient.update w now (CoinbaseSensor.data sensor) tr)
      as [[r0 client] tr0] eqn:Hclient.
    rewrite (sensor_update_run _ _ _ _ _ _ _ Hclient) in Hrun.
    destruct r0; injection Hrun as <- <- <-; [|done].
    by rewrite balance_run.
  - intros w now sensor tr Hn.
    destruct (update_effect w now _ tr Hn) as (v & client & tr' & Hrun & _).
    rewrite (sensor_update_run _ _ _ _ _ _ _ Hrun). eauto.
Qed.

Lemma C9_witness :
  normal_refresh Sample.world_wallet_as_fiat
    (CoinbaseSensor.data (sensor_of "Coinbase Checking" "a1" true Sample.poller)) = true /\
  CoinbaseSensor.state (sensor_of "Coinbase Checking" "a1" true Sample.poller)
  = VStr "3000.00" /\
  CoinbaseSensor.state
    (CoinbaseSensor.update Sample.world_wallet_as_fiat 60
       (sensor_of "Coinbase Checking" "a1" true Sample.poller) []).1.2
  = VStr "3100.00".
Proof.
  split; [reflexivity|]. split; [reflexivity|].
  destruct C9_balance_and_state as (_ & Hstate & Hreturns).
  destruct (Hreturns Sample.world_wallet_as_fiat 60
              (sensor_of "Coinbase Checking" "a1" true Sample.poller) [] eq_refl)
    as (sensor' & tr' & Hrun).
  pose proof (Hstate _ _ _ _ _ _ _ Hrun eq_refl) as Hbal.
  rewrite Hrun. cbn [fst snd].
  assert (Hshown : CoinbaseClient.balance (CoinbaseSensor.native sensor')
                     (CoinbaseSensor.data sensor') tr'
                   = (Ret (VStr "3100.00"), CoinbaseSensor.data sensor', tr')).
  { injection Hrun as <- <-. reflexivity. }
  rewrite Hshown in Hbal. by injection Hbal.
Defined.

(** C10.  When the first refresh, made inside the constructor, fails with
    an authentication error, the constructor still returns the entity: its
    state is [None], its unit of measurement is [None], and every attribute
    read from the snapshot is [None].  In [setup_platform] such an entity is
    handed to the host like any other. *)
Theorem C10_construction_survives_auth_failure (w : World) (now : Z)
    (config : Config) (name id : string) (native : bool) (msg : string) :
  get_account w (api_key config) (api_secret config) id = SdkAuthError msg ->
  (forall (S : Type) (st : S) (tr : list event),
     exists sensor tr',
       CoinbaseSensor.init w now config name id native st tr = (Ret sensor, st, tr') /\
       CoinbaseSensor.state sensor = VNone /\
       CoinbaseSensor.unit_of_measurement sensor = VNone /\
       CoinbaseSensor.state_attributes sensor !! "show_native" = Some (VBool native) /\
       forall k v, CoinbaseSensor.state_attributes sensor !! k = Some v ->
                   k <> "show_native" -> v = VNone) /\
  (forall accounts host tr,
     get_accounts w (api_key config) (api_secret config) = SdkOk accounts ->
     (forall a, a ∈ accounts -> acc_name a ∉ exclude_wallet config ->
                normal_refresh w (CoinbaseClient.init config (acc_id a)) = true) ->
     exists sensors tr',
       setup_platform w now config host tr = (Ret VNone, host ++ sensors, tr') /\
       Forall2 (fun sensor a =>
                  CoinbaseSensor.account_id sensor = acc_id a /\
                  (acc_id a = id -> blank sensor))
         sensors (filter (fun a => acc_name a ∉ exclude_wallet config) accounts)).
Proof.
  intros Hdenied. split.
  - intros S st tr.
    assert (Hacc : account_outcome w (CoinbaseClient.init config id)
                   = SdkAuthError msg) by exact Hdenied.
    pose proof (update_denied w now (CoinbaseClient.init config id) tr msg
                  eq_refl Hacc) as Hrun.
    eexists _, _. split; [by eapply sensor_init_run|].
    destruct (blank_sensor name id native config (Some now)) as (H1 & H2 & H3).
    by repeat split.
  - intros accounts host tr Hlist Hn.
    destruct (setup_platform_run w now config accounts host tr Hlist)
      as (sensors & tr' & Hrun & Hbuilt).
    { intros a [Hex Hin]%list_elem_of_filter. by apply Hn. }
    exists sensors, tr'. split; [done|].
    eapply Forall2_impl; [exact Hbuilt|].
    intros sensor a [Had Hblank]. split; [apply Had|].
    intros Hid. apply Hblank. exists msg. by rewrite Hid.
Qed.

Lemma C10_witness :
  get_account Sample.world_revoked (api_key Sample.config) (api_secret Sample.config) "a1"
    = SdkAuthError "invalid api key" /\
  (exists sensor tr',
     CoinbaseSensor.init Sample.world_revoked 0 Sample.config "Coinbase Checking" "a1"
       false tt [] = (Ret sensor, tt, tr') /\
     CoinbaseSensor.state sensor = VNone /\
     CoinbaseSensor.unit_of_measurement sensor = VNone /\
     CoinbaseSensor.state_attributes sensor !! "show_native" = Some (VBool false) /\
     forall k v, CoinbaseSensor.state_attributes sensor !! k = Some v ->
                 k <> "show_native" -> v = VNone) /\
  exists sensor tr',
    setup_platform Sample.world_revoked 0 Sample.config [] []
      = (Ret VNone, [sensor], tr') /\
    CoinbaseSensor.account_id sensor = "a1" /\ blank sensor.
Proof.
  split; [reflexivity|].
  destruct (C10_construction_survives_auth_failure Sample.world_revoked 0
              Sample.config "Coinbase Checking" "a1" false "invalid api key"
              eq_refl) as [Hinit Hsetup].
  split; [exact (Hinit unit tt [])|].
  destruct (Hsetup [Sample.usd_fiat; Sample.btc_wallet] [] [] eq_refl)
    as (sensors & tr' & Hrun & Hall).
  { intros a Ha Hex. reflexivity. }
  change (filter _ _) with [Sample.btc_wallet] in Hall.
  apply Forall2_cons_inv_r in Hall as (sensor & rest & [Hid Hblank] & Hrest & ->).
  apply Forall2_nil_inv_r in Hrest as ->.
  exists sensor, tr'. split; [exact Hrun|]. split; [exact Hid|].
  apply Hblank. reflexivity.
Defined.

(** * Further properties *)

(** ** Every way a refresh can end *)

Lemma update_body_cases w self tr :
  exists r self' ev,
    CoinbaseClient.update_body w self tr = (r, self', tr ++ ev) /\
    body_run w self r self' ev.
Proof.
  destruct (account_outcome w self) as [account|msg|msg] eqn:Hacc.
  2:{ eexists _, _, _. split; [by apply update_body_denied|by constructor]. }
  2:{ eexists _, _, _. split; [by apply update_body_fault|by constructor]. }
  pose proof Hacc as Hget.
  unfold account_outcome in Hget. unfold CoinbaseClient.update_body. run_monad.
  rewrite Hget. run_monad. rewrite rate_call_run.
  destruct (reply_of w "exchange_rate" account) as [rate|e] eqn:Hr.
  2:{ eexists _, _, _. split; [by rewrite <- app_assoc|by constructor]. }
  cbn -[CoinbaseClient.coinbasehttp]. case_bool_decide as Hty.
  2:{ eexists _, _, _. split; [by rewrite <- app_assoc|by constructor]. }
  rewrite buy_call_run.
  destruct (reply_of w "buy_price" account) as [buy|e] eqn:Hb.
  2:{ eexists _, _, _. split; [by rewrite <- !app_assoc|by constructor]. }
  rewrite sell_call_run.
  destruct (reply_of w "sell_price" account) as [sell|e] eqn:Hs.
  2:{ eexists _, _, _. split; [by rewrite <- !app_assoc|by constructor]. }
  rewrite spot_call_run.
  destruct (reply_of w "spot_price" account) as [spot|e] eqn:Hp.
  2:{ eexists _, _, _. split; [by rewrite <- !app_assoc|by constructor]. }
  eexists _, _, _. split; [by rewrite <- !app_assoc|].
  by apply run_wallet.
Qed.

Lemma body_run_again w self r self' ev r2 self2 ev2 :
  body_run w self r self' ev ->
  body_run w self' r2 self2 ev2 ->
  r2 = r /\ self2 = self' /\ ev2 = ev.
Proof.
  intros Hfirst Hsecond.
  destruct Hfirst; inversion Hsecond; subst;
    unfold account_outcome in *; cbn in *;
    repeat match goal with
           | H1 : ?x = _, H2 : ?x = _ |- _ => rewrite H1 in H2
           end;
    simplify_eq; repeat split; try first [done|congruence].
  all: repeat match goal with
              | H1 : ?x = Ret ?a, H2 : ?x = Ret ?b |- _ =>
                  assert (b = a) by congruence; subst b; clear H2
              end; done.
Qed.

(** Refreshing again against the same remote answers changes nothing:
    whatever the first run of the body of [update] did (returned, was
    refused, or raised half way), a second run ends the same way, leaves
    the client exactly as the first run left it, and appends the same
    events. *)
Theorem refresh_is_idempotent (w : World) (self : CoinbaseClient.t)
    (tr tr2 : list event) :
  exists r self' ev,
    CoinbaseClient.update_body w self tr = (r, self', tr ++ ev) /\
    CoinbaseClient.update_body w self' tr2 = (r, self', tr2 ++ ev).
Proof.
  destruct (update_body_cases w self tr) as (r & self' & ev & Hrun & Hcase).
  destruct (update_body_cases w self' tr2) as (r2 & self2 & ev2 & Hrun2 & Hcase2).
  destruct (body_run_again _ _ _ _ _ _ _ _ Hcase Hcase2) as (-> & -> & ->).
  by exists r, self', ev.
Qed.

(** ** A fault half way through a refresh *)

Lemma fault_reply w query account msg :
  outcome_of w query account = HttpFault msg ->
  reply_of w query account = Raise (OtherError msg) /\
  events_of w query account
  = [CallUrlopen (CoinbaseClient.request (call_url query account))].
Proof. unfold reply_of, events_of. by intros ->. Qed.

(** An exception other than [HTTPError] in the exchange-rates call (a
    [URLError], a time-out, a body that is not JSON) leaves [update] through
    the body with the account already stored: the nine account fields hold
    the new values while the four pricing fields keep the old ones. *)
Theorem rate_fault_leaves_partial_snapshot (w : World)
    (self : CoinbaseClient.t) (tr : list event) (account : Account)
    (msg : string) :
  account_outcome w self = SdkOk account ->
  outcome_of w "exchange_rate" account = HttpFault msg ->
  exists self',
    CoinbaseClient.update_body w self tr
    = (Raise (OtherError msg), self',
       tr ++ [account_call self; CallUrlopen (CoinbaseClient.request rate_url)]) /\
    account_fields self' = account_values account /\
    pricing_fields self' = pricing_fields self.
Proof.
  intros Hacc Hout. apply fault_reply in Hout as [Hreply Hev].
  exists (CoinbaseClient.set_account account self). split; [|done].
  destruct (update_body_cases w self tr) as (r & self' & ev & -> & Hcase).
  destruct Hcase; try congruence.
  assert (account0 = account) as -> by congruence.
  assert (e = OtherError msg) as -> by congruence.
  by rewrite Hev.
Qed.

Lemma rate_fault_witness :
  account_outcome Sample.world_offline Sample.poller = SdkOk Sample.btc_as_fiat /\
  exists self' tr',
    CoinbaseClient.update_body Sample.world_offline Sample.poller []
    = (Raise (OtherError "URLError: timed out"), self', tr') /\
    CoinbaseClient.native_balance_amount self' = VStr "3100.00" /\
    CoinbaseClient.exch_rate_native_usd self' = VStr "1.0".
Proof.
  split; [reflexivity|].
  destruct (rate_fault_leaves_partial_snapshot Sample.world_offline
              Sample.poller [] Sample.btc_as_fiat "URLError: timed out"
              eq_refl eq_refl) as (self' & Hrun & Hacc & Hprices).
  exists self'. eexists. split; [exact Hrun|].
  injection Hacc as _ _ _ _ _ _ _ Hnative _.
  injection Hprices as _ _ _ Hrate.
  split; [exact Hnative|]. rewrite Hrate. reflexivity.
Defined.

(** When the refresh raises after the account was stored, the entity's
    [update] raises too and never reaches the line that re-reads the
    balance: the state of the entity is the old one, while [balance] of its
    poller already answers with the new amount. *)
Theorem failed_refresh_leaves_state_stale (w : World) (now : Z)
    (sensor : CoinbaseSensor.t) (tr : list event) (account : Account)
    (msg : string) :
  throttled now (CoinbaseSensor.data sensor) = false ->
  account_outcome w (CoinbaseSensor.data sensor) = SdkOk account ->
  outcome_of w "exchange_rate" account = HttpFault msg ->
  exists sensor' tr',
    CoinbaseSensor.update w now sensor tr = (Raise (OtherError msg), sensor', tr') /\
    CoinbaseSensor.state sensor' = CoinbaseSensor.state sensor /\
    CoinbaseClient.balance (CoinbaseSensor.native sensor')
      (CoinbaseSensor.data sensor') tr'
    = (Ret (VStr (amount (shown_money (CoinbaseSensor.native sensor) account))),
       CoinbaseSensor.data sensor', tr').
Proof.
  intros Hdue Hacc Hout.
  destruct (rate_fault_leaves_partial_snapshot w
              (CoinbaseClient.set_throttle (Some now) (CoinbaseSensor.data sensor))
              tr account msg Hacc Hout) as (client & Hrun & Hfields & _).
  rewrite <- update_due in Hrun by done.
  eexists _, _. split; [by rewrite (sensor_update_run _ _ _ _ _ _ _ Hrun)|].
  split; [done|]. rewrite balance_run. cbn.
  injection Hfields as _ _ _ _ _ Hamount _ Hnative _.
  unfold shown_balance, shown_money.
  destruct (CoinbaseSensor.native sensor); by rewrite ?Hamount, ?Hnative.
Qed.

Lemma failed_refresh_witness :
  exists sensor' tr',
    CoinbaseSensor.update Sample.world_offline 60
      (sensor_of "Coinbase Checking" "a1" true Sample.poller) []
    = (Raise (OtherError "URLError: timed out"), sensor', tr') /\
    CoinbaseSensor.state sensor' = VStr "3000.00" /\
    CoinbaseClient.balance true (CoinbaseSensor.data sensor') tr'
    = (Ret (VStr "3100.00"), CoinbaseSensor.data sensor', tr').
Proof.
  destruct (failed_refresh_leaves_state_stale Sample.world_offline 60
              (sensor_of "Coinbase Checking" "a1" true Sample.poller) []
              Sample.btc_as_fiat "URLError: timed out" eq_refl eq_refl eq_refl)
    as (sensor' & tr' & Hrun & Hstate & Hbalance).
  exists sensor', tr'. split; [exact Hrun|]. split; [exact Hstate|].
  assert (Hnative : CoinbaseSensor.native sensor' = true).
  { revert Hrun. vm_compute. by intros [= <- <-]. }
  rewrite Hnative in Hbalance. exact Hbalance.
Defined.

(** ** Edge cases of [coinbasehttp] *)

Lemma queries_unknown currency currency_native query :
  query ∉ pricing_queries ->
  CoinbaseClient.queries currency currency_native !! query = None.
Proof.
  unfold pricing_queries, CoinbaseClient.queries. intros Hq.
  repeat (apply not_elem_of_cons in Hq as [? Hq]).
  by rewrite !lookup_insert_ne, lookup_empty.
Qed.

(** A query name other than the four of the table makes [coinbasehttp]
    raise [TypeError] (the table lookup gives [None], which cannot be
    appended to the base URL) before any request is built: no call is
    made and nothing is logged. *)
Theorem coinbasehttp_unknown_query (S : Type) (w : World) (query : string)
    (currency : option string) (currency_native : string) (s : S)
    (tr : list event) :
  query ∉ pricing_queries ->
  CoinbaseClient.coinbasehttp w query currency currency_native s tr
  = (Raise TypeError, s, tr).
Proof.
  intros Hq. unfold CoinbaseClient.coinbasehttp.
  by rewrite queries_unknown.
Qed.

Lemma coinbasehttp_unknown_query_witness :
  ("price" ∉ pricing_queries) /\
  CoinbaseClient.coinbasehttp Sample.world_wallet "price" (Some "BTC") "USD" tt []
  = (Raise TypeError, tt, []).
Proof.
  assert (Hq : "price" ∉ pricing_queries).
  { unfold pricing_queries. intros Hin.
    repeat (apply elem_of_cons in Hin as [Heq|Hin]; [discriminate Heq|]).
    by apply elem_of_nil in Hin. }
  split; [exact Hq|].
  exact (coinbasehttp_unknown_query unit Sample.world_wallet "price" (Some "BTC")
           "USD" tt [] Hq).
Defined.

(** A 2xx document that lacks a key the code subscripts makes
    [coinbasehttp] raise [KeyError] for that key: ["data"] first, then
    ["rates"] for the exchange-rate query and ["amount"] for a price query.
    The request has been made by then, and nothing is logged. *)
Theorem coinbasehttp_missing_key (S : Type) (w : World) (query : string)
    (currency : option string) (currency_native path : string)
    (d : gmap string value) (s : S) (tr : list event) :
  CoinbaseClient.queries currency currency_native !! query = Some path ->
  urlopen w (CoinbaseClient.request (CoinbaseClient.base_url +:+ path))
  = Http2xx (VDict d) ->
  let key := (if bool_decide (query = "exchange_rate") then "rates" else "amount") in
  let made :=
    tr ++ [CallUrlopen (CoinbaseClient.request (CoinbaseClient.base_url +:+ path))] in
  (d !! "data" = None ->
   CoinbaseClient.coinbasehttp w query currency currency_native s tr
   = (Raise (KeyError "data"), s, made)) /\
  (forall data, d !! "data" = Some (VDict data) -> data !! key = None ->
   CoinbaseClient.coinbasehttp w query currency currency_native s tr
   = (Raise (KeyError key), s, made)).
Proof.
  intros Hq Hurl key made.
  rewrite (coinbasehttp_run w query currency currency_native path s tr Hq).
  cbn zeta. rewrite Hurl. unfold reply, call_events, made, key. cbn. split.
  - by intros ->.
  - intros data -> Hkey. case_bool_decide; cbn; by rewrite Hkey.
Qed.

Lemma coinbasehttp_missing_key_witness :
  CoinbaseClient.coinbasehttp
    {| get_accounts := Sample.listing; get_account := Sample.accounts Sample.btc_wallet;
       urlopen := fun _ => Http2xx (VDict {[ "data" := VDict ∅ ]}) |}
    "spot_price" (Some "BTC") "USD" tt []
  = (Raise (KeyError "amount"), tt,
     [CallUrlopen (CoinbaseClient.request (price_url "BTC" "USD" "spot"))]).
Proof.
  exact (proj2 (coinbasehttp_missing_key unit
                  {| get_accounts := Sample.listing;
                     get_account := Sample.accounts Sample.btc_wallet;
                     urlopen := fun _ => Http2xx (VDict {[ "data" := VDict ∅ ]}) |}
                  "spot_price" (Some "BTC") "USD" "prices/BTC-USD/spot"
                  {[ "data" := VDict ∅ ]} tt [] eq_refl eq_refl)
               ∅ eq_refl eq_refl).
Defined.

(** ** What the entity shows *)

Lemma attributes_without_pricing sensor :
  py_eq_str (CoinbaseClient.account_type (CoinbaseSensor.data sensor)) "wallet" = false ->
  forall k, k ∈ wallet_keys -> CoinbaseSensor.state_attributes sensor !! k = None.
Proof.
  intros Hty k Hk. unfold CoinbaseSensor.state_attributes. rewrite Hty.
  unfold wallet_keys in Hk.
  repeat (apply elem_of_cons in Hk as [->|Hk]; [done|]).
  by apply elem_of_nil in Hk.
Qed.

(** For an account that is not a wallet, a successful refresh of the
    entity does request the exchange rate and stores what that call
    answered in the poller, yet the attribute map shows none of the four
    pricing attributes, the exchange rate included, and never an [id]. *)
Theorem rate_fetched_but_hidden_for_other_kinds (w : World) (now : Z)
    (sensor : CoinbaseSensor.t) (tr : list event) (account : Account) :
  throttled now (CoinbaseSensor.data sensor) = false ->
  account_outcome w (CoinbaseSensor.data sensor) = SdkOk account ->
  acc_type account <> "wallet" ->
  normal_refresh w (CoinbaseSensor.data sensor) = true ->
  exists sensor' tr',
    CoinbaseSensor.update w now sensor tr = (Ret tt, sensor', tr ++ tr') /\
    CallUrlopen (CoinbaseClient.request rate_url) ∈ tr' /\
    Some (CoinbaseClient.exch_rate_native_usd (CoinbaseSensor.data sensor'))
    = answer_of w "exchange_rate" account /\
    (forall k, k ∈ wallet_keys ->
               CoinbaseSensor.state_attributes sensor' !! k = None) /\
    CoinbaseSensor.state_attributes sensor' !! "id" = None.
Proof.
  intros Hdue Hacc Hty Hn. unfold normal_refresh in Hn. rewrite Hacc in Hn.
  apply andb_prop in Hn as [Hr _]. apply text_answer_inv in Hr as [rate Hr].
  pose proof (update_other w now _ tr account (VStr rate) Hdue Hacc Hty Hr) as Hrun.
  eexists _, _. split; [by rewrite (sensor_update_run _ _ _ _ _ _ _ Hrun)|].
  split; [|split; [by rewrite Hr|]].
  { apply list_elem_of_further. unfold events_of, call_events.
    apply list_elem_of_here. }
  assert (Hkind : py_eq_str (VStr (acc_type account)) "wallet" = false)
    by (by apply bool_decide_eq_false_2).
  split.
  - apply attributes_without_pricing. exact Hkind.
  - unfold CoinbaseSensor.state_attributes. cbn. by rewrite bool_decide_eq_false_2.
Qed.

Lemma rate_fetched_but_hidden_witness :
  answer_of Sample.world_wallet_as_fiat "exchange_rate" Sample.btc_as_fiat
    = Some (VStr "1.0") /\
  exists sensor' tr',
    CoinbaseSensor.update Sample.world_wallet_as_fiat 60
      (sensor_of "Coinbase Checking" "a1" false Sample.poller) []
    = (Ret tt, sensor', [] ++ tr') /\
    CallUrlopen (CoinbaseClient.request rate_url) ∈ tr' /\
    CoinbaseClient.exch_rate_native_usd (CoinbaseSensor.data sensor') = VStr "1.0" /\
    (forall k, k ∈ wallet_keys ->
               CoinbaseSensor.state_attributes sensor' !! k = None) /\
    CoinbaseSensor.state_attributes sensor' !! "id" = None.
Proof.
  assert (Hans : answer_of Sample.world_wallet_as_fiat "exchange_rate"
                   Sample.btc_as_fiat = Some (VStr "1.0")) by reflexivity.
  split; [exact Hans|].
  destruct (rate_fetched_but_hidden_for_other_kinds Sample.world_wallet_as_fiat 60
              (sensor_of "Coinbase Checking" "a1" false Sample.poller) []
              Sample.btc_as_fiat eq_refl eq_refl ltac:(discriminate) eq_refl)
    as (sensor' & tr' & Hrun & Hcall & Hrate & Hkeys & Hid).
  exists sensor', tr'. split; [exact Hrun|]. split; [exact Hcall|].
  split; [|split; [exact Hkeys|exact Hid]].
  rewrite Hans in Hrate. by injection Hrate.
Defined.

(** For a wallet, after a successful refresh of the entity the attribute
    map shows under the four pricing keys exactly what the four calls
    answered, next to the balances of the account. *)
Theorem wallet_attributes_show_the_answers (w : World) (now : Z)
    (sensor : CoinbaseSensor.t) (tr : list event) (account : Account) :
  throttled now (CoinbaseSensor.data sensor) = false ->
  account_outcome w (CoinbaseSensor.data sensor) = SdkOk account ->
  acc_type account = "wallet" ->
  normal_refresh w (CoinbaseSensor.data sensor) = true ->
  exists sensor' tr',
    CoinbaseSensor.update w now sensor tr = (Ret tt, sensor', tr') /\
    CoinbaseSensor.state_attributes sensor' !! "buy_price"
      = answer_of w "buy_price" account /\
    CoinbaseSensor.state_attributes sensor' !! "sell_price"
      = answer_of w "sell_price" account /\
    CoinbaseSensor.state_attributes sensor' !! "spot_price"
      = answer_of w "spot_price" account /\
    CoinbaseSensor.state_attributes sensor' !! "exch_rate_native_usd"
      = answer_of w "exchange_rate" account /\
    CoinbaseSensor.state_attributes sensor' !! "balance_amount"
      = Some (VStr (amount (acc_balance account))) /\
    CoinbaseSensor.state_attributes sensor' !! "native_balance_amount"
      = Some (VStr (amount (acc_native_balance account))) /\
    CoinbaseSensor.state_attributes sensor' !! "show_native"
      = Some (VBool (CoinbaseSensor.native sensor)).
Proof.
  intros Hdue Hacc Hty Hn. unfold normal_refresh in Hn. rewrite Hacc in Hn.
  rewrite bool_decide_eq_true_2 in Hn by done.
  apply andb_prop in Hn as [Hr Hn].
  apply andb_prop in Hn as [Hn Hp]. apply andb_prop in Hn as [Hb Hs].
  apply text_answer_inv in Hr as [rate Hr].
  apply text_answer_inv in Hb as [buy Hb].
  apply text_answer_inv in Hs as [sell Hs].
  apply text_answer_inv in Hp as [spot Hp].
  pose proof (update_wallet w now _ tr account _ _ _ _ Hdue Hacc Hty Hr Hb Hs Hp)
    as Hrun.
  eexists _, _. split; [by rewrite (sensor_update_run _ _ _ _ _ _ _ Hrun)|].
  unfold CoinbaseSensor.state_attributes. cbn.
  rewrite bool_decide_eq_true_2 by done.
  rewrite Hr, Hb, Hs, Hp. by repeat split.
Qed.

Lemma wallet_attributes_witness :
  exists sensor' tr',
    CoinbaseSensor.update Sample.world_spot_down 60
      (sensor_of "Coinbase Checking" "a1" false Sample.poller) []
    = (Ret tt, sensor', tr') /\
    CoinbaseSensor.state_attributes sensor' !! "buy_price" = Some (VStr "6060.00") /\
    CoinbaseSensor.state_attributes sensor' !! "spot_price"
    = Some (VStr ("Coinbase API error (" +:+ price_url "BTC" "USD" "spot"
                  +:+ "): HTTP Error 500: Internal Server Error")).
Proof.
  destruct (wallet_attributes_show_the_answers Sample.world_spot_down 60
              (sensor_of "Coinbase Checking" "a1" false Sample.poller) []
              Sample.btc_wallet eq_refl eq_refl eq_refl eq_refl)
    as (sensor' & tr' & Hrun & Hbuy & _ & Hspot & _).
  exists sensor', tr'. split; [exact Hrun|]. split; [exact Hbuy|exact Hspot].
Defined.

(** An entity built for an account whose first refresh succeeds shows, as
    state and unit, the amount and the currency code of one and the same
    balance: the native balance when [native] is set, the balance in the
    account's own currency otherwise.  The attribute
    [_unit_of_measurement] is left at [None]; the unit is always read from
    the poller. *)
Theorem constructed_entity_shows_balance (S : Type) (w : World) (now : Z)
    (config : Config) (name id : string) (native : bool) (st : S)
    (tr : list event) (account : Account) :
  get_account w (api_key config) (api_secret config) id = SdkOk account ->
  normal_refresh w (CoinbaseClient.init config id) = true ->
  exists sensor tr',
    CoinbaseSensor.init w now config name id native st tr = (Ret sensor, st, tr') /\
    CoinbaseSensor.state sensor = VStr (amount (shown_money native account)) /\
    CoinbaseSensor.unit_of_measurement sensor
    = VStr (currency (shown_money native account)) /\
    CoinbaseSensor._unit_of_measurement sensor = VNone.
Proof.
  intros Hget Hn.
  assert (Hacc : account_outcome w (CoinbaseClient.init config id) = SdkOk account)
    by exact Hget.
  destruct (update_effect w now _ tr Hn) as (v & client & tr' & Hrun & Heff).
  eexists _, _. split; [by eapply sensor_init_run|].
  destruct Heff as [Hth|? ? Hd|? ? ? Hok|? ? ? ? ? ? Hok]; try done;
    try congruence.
  all: assert (account0 = account) as -> by congruence.
  all: by destruct native.
Qed.

Lemma constructed_entity_witness :
  exists sensor tr',
    CoinbaseSensor.init Sample.world_wallet 0 Sample.config "Coinbase Checking" "a1"
      true tt [] = (Ret sensor, tt, tr') /\
    CoinbaseSensor.state sensor = VStr "3000.00" /\
    CoinbaseSensor.unit_of_measurement sensor = VStr "USD" /\
    CoinbaseSensor._unit_of_measurement sensor = VNone.
Proof.
  exact (constructed_entity_shows_balance unit Sample.world_wallet 0 Sample.config
           "Coinbase Checking" "a1" true tt [] Sample.btc_wallet eq_refl eq_refl).
Defined.

(** ** Edge cases of the bootstrap *)

Lemma setup_accounts_all_excluded w now config accounts :
  Forall (excluded config) accounts ->
  forall sensors (host : Host) tr,
    setup_accounts w now config accounts sensors host tr
    = (Ret sensors, host,
       tr ++ map (fun a => Log DEBUG ("Sensor setup: Excluded account '"
                                      +:+ acc_name a +:+ "'.")) accounts).
Proof.
  unfold excluded.
  induction 1 as [|a rest Hex Hrest IH]; intros sensors host tr.
  { by rewrite app_nil_r. }
  cbn [setup_accounts]. run_monad.
  rewrite bool_decide_eq_false_2 by (by intros Hin).
  rewrite IH. cbn [map]. by rewrite <- app_assoc.
Qed.

(** When every listed account is excluded (in particular when the listing
    is empty), [setup_platform] still returns [None] after handing the host
    an empty list: the registry is unchanged, no account is fetched and no
    pricing request is made; the trace is the listing call and the debug
    lines. *)
Theorem setup_with_every_account_excluded (w : World) (now : Z)
    (config : Config) (accounts : list Account) (host : Host)
    (tr : list event) :
  get_accounts w (api_key config) (api_secret config) = SdkOk accounts ->
  Forall (fun a => acc_name a ∈ exclude_wallet config) accounts ->
  setup_platform w now config host tr
  = (Ret VNone, host,
     tr ++ [CallGetAccounts (api_key config) (api_secret config);
            Log DEBUG "Sensor setup: Connecion to Coinbase established."]
        ++ map (fun a => Log DEBUG ("Sensor setup: Excluded account '"
                                    +:+ acc_name a +:+ "'.")) accounts
        ++ [Log DEBUG "Sensor setup: Complete."]).
Proof.
  intros Hlist Hex. unfold setup_platform. run_monad. rewrite Hlist. run_monad.
  rewrite (setup_accounts_all_excluded w now config accounts Hex).
  unfold add_devices. run_monad. rewrite app_nil_r. f_equal.
  by rewrite <- !app_assoc.
Qed.

Lemma setup_with_every_account_excluded_witness :
  setup_platform Sample.world_wallet 0
    {| api_key := "key"; api_secret := "secret"; native_balance := true;
       exclude_wallet := ["Checking"; "Vault"] |} [] []
  = (Ret VNone, [],
     [CallGetAccounts "key" "secret";
      Log DEBUG "Sensor setup: Connecion to Coinbase established.";
      Log DEBUG "Sensor setup: Excluded account 'Vault'.";
      Log DEBUG "Sensor setup: Excluded account 'Checking'.";
      Log DEBUG "Sensor setup: Complete."]).
Proof.
  apply (setup_with_every_account_excluded Sample.world_wallet 0
           {| api_key := "key"; api_secret := "secret"; native_balance := true;
              exclude_wallet := ["Checking"; "Vault"] |}
           [Sample.usd_fiat; Sample.btc_wallet] [] []).
  - reflexivity.
  - repeat constructor.
Defined.

Lemma sensor_init_faults (w : World) (now : Z) (config : Config)
    (account : Account) (host : Host) tr :
  first_refresh_faults w config account ->
  exists e tr',
    CoinbaseSensor.init w now config ("Coinbase " +:+ acc_name account)
      (acc_id account) (native_balance config) host tr
    = (Raise e, host, tr').
Proof.
  intros Hfault. rewrite sensor_init_cases, update_due by done.
  destruct (update_body_cases w
              (CoinbaseClient.set_throttle (Some now)
                 (CoinbaseClient.init config (acc_id account))) tr)
    as (r & self' & ev & -> & Hcase).
  assert (Hraise : exists e, r = Raise e); [|destruct Hraise as [e ->]; eauto].
  destruct Hfault as [[msg Hget]|(detail & msg & Hget & Hout)].
  - destruct Hcase; unfold account_outcome in *; cbn in *; try congruence; eauto.
  - apply fault_reply in Hout as [Hreply _].
    destruct Hcase; unfold account_outcome in *; cbn in *; eauto;
      try congruence.
    all: assert (account0 = detail) as -> by congruence; congruence.
Qed.

Lemma setup_accounts_faults w now config accounts :
  (exists a, a ∈ listed config accounts /\ first_refresh_faults w config a) ->
  forall sensors (host : Host) tr,
  exists e tr',
    setup_accounts w now config accounts sensors host tr = (Raise e, host, tr').
Proof.
  unfold listed.
  induction accounts as [|a rest IH]; intros (bad & Hin & Hbad) sensors host tr.
  { by apply elem_of_nil in Hin. }
  cbn [setup_accounts]. run_monad.
  destruct (decide (acc_name a ∉ exclude_wallet config)) as [Hkeep|Hex].
  - rewrite bool_decide_eq_true_2 by done.
    rewrite filter_cons_True in Hin by done.
    destruct (CoinbaseSensor.init w now config _ _ _ host tr)
      as [[[sensor|e] host1] tr1] eqn:Hinit.
    + pose proof Hinit as Hsame.
      apply sensor_init_adapts in Hsame as [-> _].
      apply elem_of_cons in Hin as [->|Hin].
      { destruct (sensor_init_faults w now config a host tr Hbad)
          as (e & tr' & Hraise). congruence. }
      apply IH. by exists bad.
    + rewrite sensor_init_cases in Hinit. revert Hinit.
      destruct (CoinbaseClient.update w now _ tr) as [[[v|e'] client] tr0];
        [done|intros [= <- <- <-]; eauto].
  - rewrite bool_decide_eq_false_2 by done.
    rewrite filter_cons_False in Hin by done.
    apply IH. by exists bad.
Qed.

(** Registration is all or nothing: when the first refresh of one listed,
    non-excluded account raises (the SDK faults on it, or the
    exchange-rates call does), [setup_platform] raises and registers no
    entity at all, not even for the accounts built before it. *)
Theorem one_faulting_account_aborts_setup (w : World) (now : Z)
    (config : Config) (accounts : list Account) (bad : Account)
    (host : Host) (tr : list event) :
  get_accounts w (api_key config) (api_secret config) = SdkOk accounts ->
  bad ∈ accounts ->
  acc_name bad ∉ exclude_wallet config ->
  first_refresh_faults w config bad ->
  exists e tr', setup_platform w now config host tr = (Raise e, host, tr').
Proof.
  intros Hlist Hin Hkeep Hbad. unfold setup_platform. run_monad.
  rewrite Hlist. run_monad.
  destruct (setup_accounts_faults w now config accounts) with
    (sensors := @nil CoinbaseSensor.t) (host := host)
    (tr := (tr ++ [CallGetAccounts (api_key config) (api_secret config)])
           ++ [Log DEBUG "Sensor setup: Connecion to Coinbase established."])
    as (e & tr' & ->).
  { exists bad. split; [|done]. by apply list_elem_of_filter. }
  eauto.
Qed.

Lemma one_faulting_account_witness :
  first_refresh_faults Sample.world_wallet
    {| api_key := "key"; api_secret := "secret"; native_balance := false;
       exclude_wallet := [] |} Sample.usd_fiat /\
  exists e tr',
    setup_platform Sample.world_wallet 0
      {| api_key := "key"; api_secret := "secret"; native_balance := false;
         exclude_wallet := [] |} [] []
    = (Raise e, [], tr').
Proof.
  assert (Hbad : first_refresh_faults Sample.world_wallet
                   {| api_key := "key"; api_secret := "secret";
                      native_balance := false; exclude_wallet := [] |}
                   Sample.usd_fiat).
  { left. exists "APIError: not found". reflexivity. }
  split; [exact Hbad|].
  apply (one_faulting_account_aborts_setup Sample.world_wallet 0
           {| api_key := "key"; api_secret := "secret"; native_balance := false;
              exclude_wallet := [] |}
           [Sample.usd_fiat; Sample.btc_wallet] Sample.usd_fiat [] []).
  - reflexivity.
  - by left.
  - apply not_elem_of_nil.
  - exact Hbad.
Defined.

(** ** The remote calls of a refresh *)

Lemma events_of_allowed w query account :
  Forall refresh_event (events_of w query account).
Proof.
  unfold events_of, call_events.
  destruct (outcome_of w query account); by repeat constructor.
Qed.

Lemma remote_calls_account self l :
  remote_calls (account_call self :: l) = account_call self :: remote_calls l.
Proof. done. Qed.

(** Whatever the remote side does, the body of [update] only appends to
    the trace; what it appends starts with [get_account] for the
    configured credentials and account id, contains at most five remote
    calls, never lists the accounts, and every pricing request in it
    carries the header [CB-VERSION: 2017-10-26]. *)
Theorem refresh_trace_shape (w : World) (self : CoinbaseClient.t)
    (tr : list event) :
  exists r self' ev,
    CoinbaseClient.update_body w self tr = (r, self', tr ++ ev) /\
    head ev
    = Some (CallGetAccount (api_key (CoinbaseClient.haconf self))
                           (api_secret (CoinbaseClient.haconf self))
                           (CoinbaseClient.account_id self)) /\
    (length (remote_calls ev) <= 5)%nat /\
    Forall refresh_event ev.
Proof.
  destruct (update_body_cases w self tr) as (r & self' & ev & Hrun & Hcase).
  exists r, self', ev. split; [done|]. split; [by destruct Hcase|]. split.
  - destruct Hcase;
      rewrite remote_calls_account, ?remote_calls_app, ?remote_calls_events;
      cbn; try lia.
    destruct (decide (false = true)); [done|cbn; lia].
  - destruct Hcase;
      repeat first [apply Forall_nil_2
                   |apply events_of_allowed
                   |apply Forall_app; split
                   |apply Forall_cons; split; [exact I|]].
Qed.
